(** * NuclideTextBuffer: a text buffer bound to a remote file

    A verification model of
    [pkg/nuclide-remote-connection/lib/NuclideTextBuffer.js] and of the
    ancestor-directory lookup exercised by the [ConfigCache] test.

    The buffer is a record of the fields the class reads and writes; a
    method is a state transformer that may throw.  An [async] method is cut
    at its single [await] into the part that runs until the request is
    issued and the part that runs once the request has settled; whatever
    happens to the buffer in between is an arbitrary state transformer. *)

From stdpp Require Import base strings list gmap.
From Stdlib Require Import NArith Lia Ascii.

Local Open Scope string_scope.

(** ** JavaScript values used by the class *)

(** Thrown values.  [invariant] from 'assert' throws an assertion error;
    [RpcTimeoutError] is the class the [catch] branch of [saveAs] tests
    with [instanceof]. *)
Inductive JsError : Type :=
| Error (message : string)
| AssertionError (message : string)
| RpcTimeoutError (message : string).

Definition message (e : JsError) : string :=
  match e with
  | Error m | AssertionError m | RpcTimeoutError m => m
  end.

Definition instanceof_RpcTimeoutError (e : JsError) : bool :=
  match e with RpcTimeoutError _ => true | _ => false end.

(** How a promise settles. *)
Inductive Settled (A : Type) : Type :=
| Fulfilled (a : A)
| Rejected (e : JsError).
Arguments Fulfilled {A} a.
Arguments Rejected {A} e.

(** [RemoteFile] is declared in './RemoteFile'; the buffer only sets and
    reads its path and encoding. *)
Record RemoteFile : Type := mkRemoteFile {
  file_path : string;
  file_encoding : string
}.

Definition RemoteFile_setPath (uri : string) (f : RemoteFile) : RemoteFile :=
  {| file_path := uri; file_encoding := file_encoding f |}.

Definition RemoteFile_setEncoding (enc : string) (f : RemoteFile) : RemoteFile :=
  {| file_path := file_path f; file_encoding := enc |}.

(** [ServerConnection] is declared in './ServerConnection'; its two methods
    the buffer calls are taken as they come.  [createFile] may hand back
    [null], which [setPath] tests for. *)
Record ServerConnection : Type := mkServerConnection {
  conn_createFile : string -> option RemoteFile;
  getUriOfRemotePath : string -> string
}.

(** A [CompositeDisposable] is live until it is disposed. *)
Inductive CompositeDisposable : Type := Active | Disposed.

(** Everything the buffer does that an observer can see, in the order it
    happens: events on [this.emitter], calls on the remote file, on the
    logger, on [atom.notifications], on [atom.workspace] and on [track], and
    the calls into the host that replace the text, reload or destroy. *)
Inductive Effect : Type :=
| DidChangePath (path : option string)
| WillSave (path : string)
| DidSave (path : string)
| DidConflict
| WillThrowWatchError (errorObject : string)
| ModifiedStatusChanged (modified : bool)
| FileWrite (contents : string)
| FileRead
| LoggerError (e : JsError)
| LoggerFatal (e : JsError)
| NotificationsAddError (text : string)
| WorkspaceOpenUntitled (contents : string)
| Track (path : string) (success : bool)
| ReplacedWholesale
| ReplacedViaDiff
| Reloaded
| Destroyed.

(** ** The buffer *)

(** The fields of [NuclideTextBuffer], its own and those it uses of the
    host's [TextBuffer].  [_saveID] is a JavaScript number used as a counter
    from 0 in steps of 1; it is a natural number here. *)
Record NuclideTextBuffer : Type := mkBuffer {
  (* TextBuffer *)
  text : string;
  cachedDiskContents : option string;
  loaded : bool;
  destroyed : bool;
  conflict : bool;
  wasModifiedBeforeRemove : bool;
  shouldDestroyOnFileDelete : option bool;
  encoding : string;
  file : option RemoteFile;
  fileSubscriptions : option CompositeDisposable;
  (* NuclideTextBuffer *)
  _connection : option ServerConnection;
  _exists : bool;
  _saveID : N;
  _pendingSaveContents : option string;
  (* observations *)
  trace : list Effect
}.

Definition set_text (v : string) (b : NuclideTextBuffer) :=
  mkBuffer v (cachedDiskContents b) (loaded b) (destroyed b) (conflict b)
    (wasModifiedBeforeRemove b) (shouldDestroyOnFileDelete b) (encoding b)
    (file b) (fileSubscriptions b) (_connection b) (_exists b) (_saveID b)
    (_pendingSaveContents b) (trace b).

Definition set_cachedDiskContents (v : option string) (b : NuclideTextBuffer) :=
  mkBuffer (text b) v (loaded b) (destroyed b) (conflict b)
    (wasModifiedBeforeRemove b) (shouldDestroyOnFileDelete b) (encoding b)
    (file b) (fileSubscriptions b) (_connection b) (_exists b) (_saveID b)
    (_pendingSaveContents b) (trace b).

Definition set_destroyed (v : bool) (b : NuclideTextBuffer) :=
  mkBuffer (text b) (cachedDiskContents b) (loaded b) v (conflict b)
    (wasModifiedBeforeRemove b) (shouldDestroyOnFileDelete b) (encoding b)
    (file b) (fileSubscriptions b) (_connection b) (_exists b) (_saveID b)
    (_pendingSaveContents b) (trace b).

Definition set_conflict (v : bool) (b : NuclideTextBuffer) :=
  mkBuffer (text b) (cachedDiskContents b) (loaded b) (destroyed b) v
    (wasModifiedBeforeRemove b) (shouldDestroyOnFileDelete b) (encoding b)
    (file b) (fileSubscriptions b) (_connection b) (_exists b) (_saveID b)
    (_pendingSaveContents b) (trace b).

Definition set_wasModifiedBeforeRemove (v : bool) (b : NuclideTextBuffer) :=
  mkBuffer (text b) (cachedDiskContents b) (loaded b) (destroyed b) (conflict b)
    v (shouldDestroyOnFileDelete b) (encoding b)
    (file b) (fileSubscriptions b) (_connection b) (_exists b) (_saveID b)
    (_pendingSaveContents b) (trace b).

Definition set_file (v : option RemoteFile) (b : NuclideTextBuffer) :=
  mkBuffer (text b) (cachedDiskContents b) (loaded b) (destroyed b) (conflict b)
    (wasModifiedBeforeRemove b) (shouldDestroyOnFileDelete b) (encoding b)
    v (fileSubscriptions b) (_connection b) (_exists b) (_saveID b)
    (_pendingSaveContents b) (trace b).

Definition set_fileSubscriptions (v : option CompositeDisposable)
    (b : NuclideTextBuffer) :=
  mkBuffer (text b) (cachedDiskContents b) (loaded b) (destroyed b) (conflict b)
    (wasModifiedBeforeRemove b) (shouldDestroyOnFileDelete b) (encoding b)
    (file b) v (_connection b) (_exists b) (_saveID b)
    (_pendingSaveContents b) (trace b).

Definition set_exists (v : bool) (b : NuclideTextBuffer) :=
  mkBuffer (text b) (cachedDiskContents b) (loaded b) (destroyed b) (conflict b)
    (wasModifiedBeforeRemove b) (shouldDestroyOnFileDelete b) (encoding b)
    (file b) (fileSubscriptions b) (_connection b) v (_saveID b)
    (_pendingSaveContents b) (trace b).

Definition set_saveID (v : N) (b : NuclideTextBuffer) :=
  mkBuffer (text b) (cachedDiskContents b) (loaded b) (destroyed b) (conflict b)
    (wasModifiedBeforeRemove b) (shouldDestroyOnFileDelete b) (encoding b)
    (file b) (fileSubscriptions b) (_connection b) (_exists b) v
    (_pendingSaveContents b) (trace b).

Definition set_pendingSaveContents (v : option string) (b : NuclideTextBuffer) :=
  mkBuffer (text b) (cachedDiskContents b) (loaded b) (destroyed b) (conflict b)
    (wasModifiedBeforeRemove b) (shouldDestroyOnFileDelete b) (encoding b)
    (file b) (fileSubscriptions b) (_connection b) (_exists b) (_saveID b)
    v (trace b).

Definition record_effect (e : Effect) (b : NuclideTextBuffer) :=
  mkBuffer (text b) (cachedDiskContents b) (loaded b) (destroyed b) (conflict b)
    (wasModifiedBeforeRemove b) (shouldDestroyOnFileDelete b) (encoding b)
    (file b) (fileSubscriptions b) (_connection b) (_exists b) (_saveID b)
    (_pendingSaveContents b) (trace b ++ [e]).

(** ** Methods as state transformers that may throw *)

Inductive Completion (A : Type) : Type :=
| Normal (a : A)
| Throw (e : JsError).
Arguments Normal {A} a.
Arguments Throw {A} e.

(** A method body: the buffer it leaves behind, also when it throws, and
    how it completed. *)
Definition Act (A : Type) : Type :=
  NuclideTextBuffer -> Completion A * NuclideTextBuffer.

#[global] Instance Act_ret : MRet Act := fun A a b => (Normal a, b).

#[global] Instance Act_bind : MBind Act := fun A B k m b =>
  match m b with
  | (Normal a, b') => k a b'
  | (Throw e, b') => (Throw e, b')
  end.

Definition throw {A : Type} (e : JsError) : Act A := fun b => (Throw e, b).

Definition this : Act NuclideTextBuffer := fun b => (Normal b, b).

Definition update (f : NuclideTextBuffer -> NuclideTextBuffer) : Act unit :=
  fun b => (Normal tt, f b).

Definition emit (e : Effect) : Act unit := update (record_effect e).

(** [try { body } catch (e) { handler e }] *)
Definition try_catch {A : Type} (body : Act A) (handler : JsError -> Act A)
    : Act A := fun b =>
  match body b with
  | (Normal a, b') => (Normal a, b')
  | (Throw e, b') => handler e b'
  end.

(** [invariant(cond, msg)] *)
Definition invariant (cond : bool) (msg : string) : Act unit :=
  if cond then mret tt else throw (AssertionError msg).

Definition completion {A : Type} (r : Completion A * NuclideTextBuffer) := r.1.
Definition after {A : Type} (r : Completion A * NuclideTextBuffer) := r.2.

(** ** The host's [TextBuffer]

    [TextBuffer] comes from 'atom' and is not part of this repository.  Its
    methods that the class calls are modelled at their interface: what they
    do to the fields above and what an observer sees. *)
Module TextBuffer.

Definition getText (b : NuclideTextBuffer) : string := text b.

Definition isEmpty (b : NuclideTextBuffer) : bool :=
  bool_decide (text b = "").

Definition getEncoding (b : NuclideTextBuffer) : string := encoding b.

(** [this.file?.getPath()] *)
Definition getPath (b : NuclideTextBuffer) : option string :=
  file_path <$> file b.

Definition LF : ascii := "010"%char.
Definition CR : ascii := "013"%char.

(** Line endings of a text: LF, CR LF (one ending) and a lone CR. *)
Fixpoint lineEndings (s : string) : N :=
  match s with
  | EmptyString => 0
  | String c rest =>
      if bool_decide (c = LF) then 1 + lineEndings rest
      else if bool_decide (c = CR) then
        match rest with
        | String c' _ =>
            if bool_decide (c' = LF) then lineEndings rest
            else 1 + lineEndings rest
        | EmptyString => 1
        end
      else lineEndings rest
  end%N.

(** A text has one line more than it has line endings. *)
Definition getLineCount (b : NuclideTextBuffer) : N :=
  (1 + lineEndings (text b))%N.

Definition setText (newText : string) : Act unit :=
  update (set_text newText);; emit ReplacedWholesale.

(** The host's own [setTextViaDiff]: the same final text, reached by
    applying a line diff. *)
Definition setTextViaDiff (newText : string) : Act unit :=
  update (set_text newText);; emit ReplacedViaDiff.

Definition emitModifiedStatusChanged (modified : bool) : Act unit :=
  emit (ModifiedStatusChanged modified).

Definition destroy : Act unit :=
  update (set_destroyed true);; emit Destroyed.

(** Modelled from the spec: the reload of step 4e, "replace [text] with
    the refreshed [cachedDiskContents]". *)
Definition reload : Act unit :=
  b ← this;
  match cachedDiskContents b with
  | Some contents => update (set_text contents)
  | None => mret tt
  end;;
  emit Reloaded.

(** The host's [updateCachedDiskContents] reads the file and, once the
    read is fulfilled, stores what was read. *)
Definition updateCachedDiskContents_start : Act unit := emit FileRead.

Definition updateCachedDiskContents_settle (r : Settled string) : Act unit :=
  match r with
  | Fulfilled contents => update (set_cachedDiskContents (Some contents))
  | Rejected e => throw e
  end.

End TextBuffer.

(** Modelled from the spec: [countOccurrences] of 'nuclide-commons/string'
    is not among the sources; it is called with the one-character string
    ['\n'] and counts how often that character occurs in [haystack]. *)
Fixpoint countOccurrences (haystack : string) (char : ascii) : N :=
  match haystack with
  | EmptyString => 0
  | String c rest =>
      if bool_decide (c = char) then 1 + countOccurrences rest char
      else countOccurrences rest char
  end%N.

(** ** The class *)

(** Diffing is O(lines^2), so don't bother for files with too many lines. *)
Definition DIFF_LINE_LIMIT : N := 10000.

Definition subscribeToFile : Act unit :=
  b ← this;
  match fileSubscriptions b with
  | Some _ => update (set_fileSubscriptions (Some Disposed))
  | None => mret tt
  end;;
  invariant (bool_decide (is_Some (file b))) "Cannot subscribe to no-file";;
  update (set_fileSubscriptions (Some Active)).

Definition createFile (connection : ServerConnection) (filePath : string)
    : option RemoteFile :=
  conn_createFile connection filePath.

Definition setPath (filePath : string) : Act unit :=
  b ← this;
  match _connection b with
  | None => mret tt
  | Some connection =>
      if bool_decide (Some filePath = TextBuffer.getPath b) then mret tt
      else
        (if bool_decide (filePath ≠ "") then
           match file b with
           | Some f =>
               update (set_file (Some (RemoteFile_setPath
                         (getUriOfRemotePath connection filePath) f)))
           | None =>
               let created := createFile connection filePath in
               update (set_file created);;
               match created with
               | Some f =>
                   update (set_file (Some (RemoteFile_setEncoding
                             (TextBuffer.getEncoding b) f)));;
                   subscribeToFile
               | None => mret tt
               end
           end
         else update (set_file None));;
        b' ← this;
        emit (DidChangePath (TextBuffer.getPath b'))
  end.

(** *** saveAs *)

(** Where [saveAs] stands when it gives up control: waiting for
    [file.write(toSaveContents)], or already through its [catch]. *)
Inductive SaveProgress : Type :=
| AwaitingWrite (toSaveContents : string)
| SaveFinished.

(** Lines 113-118: the rest of the [try] block once the write is fulfilled. *)
Definition saveAs_written (filePath toSaveContents : string) : Act bool :=
  update (set_cachedDiskContents (Some toSaveContents));;
  update (fun b => set_saveID (_saveID b + 1)%N b);;
  update (set_conflict false);;
  TextBuffer.emitModifiedStatusChanged false;;
  emit (DidSave filePath);;
  mret true.

(** Lines 119-140: the [catch] block. *)
Definition saveAs_catch (filePath toSaveContents : string) (e : JsError)
    : Act bool :=
  emit (if instanceof_RpcTimeoutError e then LoggerError e else LoggerFatal e);;
  b ← this;
  (if destroyed b then emit (WorkspaceOpenUntitled toSaveContents)
   else mret tt);;
  emit (NotificationsAddError
          ("Failed to save remote file " ++ filePath ++ ": " ++
           (if destroyed b
            then message e ++ "<br><br>Opening a new tab with your unsaved changes."
            else message e)));;
  mret false.

(** Lines 142-148: once the save is finished. *)
Definition saveAs_finished (filePath : string) (success : bool) : Act unit :=
  update (set_pendingSaveContents None);;
  emit (Track filePath success).

(** [saveAs] up to its [await].  [loadingNotification] hands the promise of
    the write through. *)
Definition saveAs_start (filePath : string) : Act SaveProgress :=
  if bool_decide (filePath = "") then
    throw (Error "Can't save buffer with no file path")
  else
    emit (WillSave filePath);;
    setPath filePath;;
    b ← this;
    let toSaveContents := TextBuffer.getText b in
    try_catch
      (invariant (bool_decide (is_Some (file b))) "Cannot save an null file!";;
       update (set_pendingSaveContents (Some toSaveContents));;
       emit (FileWrite toSaveContents);;
       mret (AwaitingWrite toSaveContents))
      (fun e =>
         success ← saveAs_catch filePath toSaveContents e;
         saveAs_finished filePath success;;
         mret SaveFinished).

(** [saveAs] from the moment the write has settled. *)
Definition saveAs_settle (filePath toSaveContents : string) (w : Settled unit)
    : Act unit :=
  success ← try_catch
    (match w with
     | Fulfilled _ => saveAs_written filePath toSaveContents
     | Rejected e => throw e
     end)
    (saveAs_catch filePath toSaveContents);
  saveAs_finished filePath success.

(** A whole save: [meanwhile] is what happens to the buffer while the write
    is outstanding, [w] how the write settles. *)
Definition saveAs (meanwhile : NuclideTextBuffer -> NuclideTextBuffer)
    (w : Settled unit) (filePath : string) : Act unit :=
  progress ← saveAs_start filePath;
  match progress with
  | AwaitingWrite toSaveContents =>
      update meanwhile;; saveAs_settle filePath toSaveContents w
  | SaveFinished => mret tt
  end.

(** *** Refreshing the cached disk contents *)

Definition updateCachedDiskContentsSync : Act unit :=
  throw (Error "updateCachedDiskContentsSync isn't supported in NuclideTextBuffer").

Definition updateCachedDiskContents_start : Act unit :=
  TextBuffer.updateCachedDiskContents_start.

Definition updateCachedDiskContents_settle (r : Settled string) : Act unit :=
  try_catch
    (TextBuffer.updateCachedDiskContents_settle r;;
     update (set_exists true))
    (fun e => update (set_exists false);; throw e).

(** *** setTextViaDiff *)

Definition setTextViaDiff (newText : string) : Act unit :=
  b ← this;
  if bool_decide (DIFF_LINE_LIMIT < TextBuffer.getLineCount b)%N
     || bool_decide (DIFF_LINE_LIMIT < countOccurrences newText TextBuffer.LF)%N
  then TextBuffer.setText newText
  else TextBuffer.setTextViaDiff newText.

(** *** The subscriptions on the remote file *)

Definition _isModified (b : NuclideTextBuffer) : bool :=
  if negb (loaded b) then false
  else
    match file b with
    | Some _ =>
        if _exists b then
          bool_decide (Some (TextBuffer.getText b) ≠ cachedDiskContents b)
        else
          if wasModifiedBeforeRemove b then negb (TextBuffer.isEmpty b)
          else false
    | None => negb (TextBuffer.isEmpty b)
    end.

Definition _maybeDestroy : Act unit :=
  b ← this;
  if match shouldDestroyOnFileDelete b with
     | None => true
     | Some answer => answer
     end
  then TextBuffer.destroy
  else
    match fileSubscriptions b with
    | Some _ => update (set_fileSubscriptions (Some Disposed))
    | None => mret tt
    end;;
    update (set_conflict false);;
    update (set_cachedDiskContents None);;
    b' ← this;
    TextBuffer.emitModifiedStatusChanged (negb (TextBuffer.isEmpty b')).

(** What the change handler remembers across its [await]. *)
Record ChangeSnapshot : Type := mkSnapshot {
  previousContents : option string;
  previousSaveID : N
}.

(** The [onDidChange] handler up to its [await]. *)
Definition onDidChange_start : Act ChangeSnapshot :=
  b ← this;
  let isModified := _isModified b in
  TextBuffer.emitModifiedStatusChanged isModified;;
  (if isModified then update (set_conflict true) else mret tt);;
  b' ← this;
  let snapshot := mkSnapshot (cachedDiskContents b') (_saveID b') in
  updateCachedDiskContents_start;;
  mret snapshot.

(** The handler once the read has settled: the rest of
    [updateCachedDiskContents], then lines 209-227. *)
Definition onDidChange_settle (snapshot : ChangeSnapshot) (r : Settled string)
    : Act unit :=
  updateCachedDiskContents_settle r;;
  b ← this;
  if bool_decide (_saveID b ≠ previousSaveID snapshot)
     || bool_decide (previousContents snapshot = cachedDiskContents b)
     || bool_decide (_pendingSaveContents b = cachedDiskContents b)
  then update (set_conflict false)
  else
    if conflict b then emit DidConflict
    else TextBuffer.reload.

(** A whole change reconciliation: [meanwhile] is what happens to the buffer
    while the read is outstanding, [r] how the read settles. *)
Definition onDidChange (meanwhile : NuclideTextBuffer -> NuclideTextBuffer)
    (r : Settled string) : Act unit :=
  snapshot ← onDidChange_start;
  update meanwhile;;
  onDidChange_settle snapshot r.

(** The [onDidDelete] handler.  The refresh it starts is not awaited. *)
Definition onDidDelete : Act unit :=
  update (set_exists false);;
  b ← this;
  let modified := bool_decide (Some (TextBuffer.getText b) ≠ cachedDiskContents b) in
  update (set_wasModifiedBeforeRemove modified);;
  if modified then updateCachedDiskContents_start
  else _maybeDestroy.

Definition onWillThrowWatchError (errorObject : string) : Act unit :=
  emit (WillThrowWatchError errorObject).

(** ** Every operation on a buffer *)

(** The methods and handlers above, and the host's entry points through
    which text is edited, reloaded or the buffer destroyed. *)
Inductive Operation : Type :=
| OpSetPath (filePath : string)
| OpSubscribeToFile
| OpSaveAsStart (filePath : string)
| OpSaveAsSettle (filePath toSaveContents : string) (w : Settled unit)
| OpUpdateCachedDiskContentsSync
| OpUpdateCachedDiskContentsStart
| OpUpdateCachedDiskContentsSettle (r : Settled string)
| OpSetTextViaDiff (newText : string)
| OpChangeStart
| OpChangeSettle (snapshot : ChangeSnapshot) (r : Settled string)
| OpDelete
| OpWatchError (errorObject : string)
| OpMaybeDestroy
| OpSetText (newText : string)
| OpReload
| OpDestroy.

Definition perform (op : Operation) (b : NuclideTextBuffer) : NuclideTextBuffer :=
  match op with
  | OpSetPath filePath => after (setPath filePath b)
  | OpSubscribeToFile => after (subscribeToFile b)
  | OpSaveAsStart filePath => after (saveAs_start filePath b)
  | OpSaveAsSettle filePath toSaveContents w =>
      after (saveAs_settle filePath toSaveContents w b)
  | OpUpdateCachedDiskContentsSync => after (updateCachedDiskContentsSync b)
  | OpUpdateCachedDiskContentsStart => after (updateCachedDiskContents_start b)
  | OpUpdateCachedDiskContentsSettle r => after (updateCachedDiskContents_settle r b)
  | OpSetTextViaDiff newText => after (setTextViaDiff newText b)
  | OpChangeStart => after (onDidChange_start b)
  | OpChangeSettle snapshot r => after (onDidChange_settle snapshot r b)
  | OpDelete => after (onDidDelete b)
  | OpWatchError errorObject => after (onWillThrowWatchError errorObject b)
  | OpMaybeDestroy => after (_maybeDestroy b)
  | OpSetText newText => after (TextBuffer.setText newText b)
  | OpReload => after (TextBuffer.reload b)
  | OpDestroy => after (TextBuffer.destroy b)
  end.

(** ** A buffer to run the handlers on *)

Definition sample_connection : ServerConnection :=
  {| conn_createFile := fun filePath => Some (mkRemoteFile filePath "utf8");
     getUriOfRemotePath := fun filePath => "nuclide://host" ++ filePath |}.

(** A loaded buffer on [/f] whose text is what is on disk. *)
Definition clean_buffer : NuclideTextBuffer :=
  {| text := "on disk";
     cachedDiskContents := Some "on disk";
     loaded := true;
     destroyed := false;
     conflict := false;
     wasModifiedBeforeRemove := false;
     shouldDestroyOnFileDelete := None;
     encoding := "utf8";
     file := Some (mkRemoteFile "/f" "utf8");
     fileSubscriptions := Some Active;
     _connection := Some sample_connection;
     _exists := true;
     _saveID := 0;
     _pendingSaveContents := None;
     trace := [] |}.

(** The same buffer with unsaved edits. *)
Definition edited_buffer : NuclideTextBuffer :=
  set_text "local edits" clean_buffer.

(** The clean buffer after a change notification whose read timed out, and
    edited by the user afterwards: the file is believed not to exist, and
    no delete was ever observed. *)
Definition stale_buffer : NuclideTextBuffer :=
  after (TextBuffer.setText "local edits"
           (after (onDidChange id (Rejected (RpcTimeoutError "timed out"))
                     clean_buffer))).

(** A save of [/f] completing while something else is suspended. *)
Definition save_completes (b : NuclideTextBuffer) : NuclideTextBuffer :=
  after (saveAs_settle "/f" "local edits" (Fulfilled tt) b).

(** Whether the destroy policy applies: no [shouldDestroyOnFileDelete], or
    one that answers true. *)
Definition destroyOnFileDelete (b : NuclideTextBuffer) : bool :=
  match shouldDestroyOnFileDelete b with
  | None => true
  | Some answer => answer
  end.

(** A text of [n] line feeds: [n + 1] lines, all empty. *)
Definition blankLines (n : N) : string :=
  N.iter n (String TextBuffer.LF) "".

Definition fiveLines : string :=
  "1" ++ String TextBuffer.LF ("2" ++ String TextBuffer.LF ("3" ++
  String TextBuffer.LF ("4" ++ String TextBuffer.LF "5"))).

(** ** ConfigCache *)

Module ConfigCache.

(** A path is the list of its segments below the filesystem root, the
    root being the empty list. *)
Abbreviation Path := (list string).

(** The filesystem the cache looks at: which paths exist, and which of
    them are files. *)
Record FileSystem : Type := mkFileSystem {
  fs_exists : Path -> bool;
  fs_isFile : Path -> bool
}.

(** A resolved entry: the configuration directory, or [None] for "none
    found". *)
Abbreviation Cache := (gmap Path (option Path)).

Definition dirname (p : Path) : Path := removelast p.

(** The directories of an upward walk, nearest first, the root last.
    The argument of [upward] has the innermost segment first. *)
Fixpoint upward (innermostFirst : list string) : list Path :=
  rev innermostFirst ::
  match innermostFirst with
  | [] => []
  | _ :: parent => upward parent
  end.

Definition ancestors (dir : Path) : list Path := upward (rev dir).

Section Lookup.

Variable fs : FileSystem.
Variable configFileName : string.

Definition hasConfigFile (dir : Path) : bool :=
  fs_exists fs (dir ++ [configFileName]).

(** Record one answer for every directory of [dirs]. *)
Definition recordAll (answer : option Path) (dirs : list Path)
    (cache : Cache) : Cache :=
  foldr (fun dir acc => <[dir := answer]> acc) cache dirs.

(** Modelled from the spec: the walk of section 4.3.  At each directory
    the cache is consulted first and a resolved answer is returned at
    once; otherwise the marker file is looked for, and a find is
    recorded for every directory visited so far; when the root has been
    passed, "none" is recorded for every directory visited. *)
Fixpoint walk (dirs visited : list Path) (cache : Cache)
    : option Path * Cache :=
  match dirs with
  | [] => (None, recordAll None visited cache)
  | dir :: above =>
      match cache !! dir with
      | Some answer => (answer, cache)
      | None =>
          if hasConfigFile dir
          then (Some dir, recordAll (Some dir) (dir :: visited) cache)
          else walk above (dir :: visited) cache
      end
  end.

(** Modelled from the spec: "if it names a file, the search begins at its
    parent directory". *)
Definition startDirectory (startPath : Path) : Path :=
  if fs_isFile fs startPath then dirname startPath else startPath.

(** Modelled from the spec: 'nuclide-commons/ConfigCache' is not among the
    sources, only its test is.  [getConfigDir(startPath)] walks upward from
    the start directory.  Lookups run one after the other here; the sharing
    of in-flight lookups is not modelled. *)
Definition getConfigDir (startPath : Path) (cache : Cache)
    : option Path * Cache :=
  walk (ancestors (startDirectory startPath)) [] cache.

(** The nearest ancestor holding the marker file, without any cache. *)
Definition nearest (dir : Path) : option Path :=
  find hasConfigFile (ancestors dir).

(** A cache agrees with the filesystem when each entry is the nearest
    configuration directory of its key. *)
Definition coherent (cache : Cache) : Prop :=
  forall (dir : Path) (answer : option Path),
    cache !! dir = Some answer -> answer = nearest dir.

End Lookup.

End ConfigCache.

(** ** Filesystems to run the lookup on *)

(** A filesystem given by the list of its files. *)
Definition listedFileSystem (files : list (list string)) : ConfigCache.FileSystem :=
  {| ConfigCache.fs_exists := fun p => bool_decide (p ∈ files);
     ConfigCache.fs_isFile := fun p => bool_decide (p ∈ files) |}.

(** The marker file in [/a] only, and a file [/a/b/c/file]. *)
Definition fs_marker_in_a : ConfigCache.FileSystem :=
  listedFileSystem [["a"; ".config"]; ["a"; "b"; "c"; "file"]].

(** The marker file both in [/a] and in [/a/b]. *)
Definition fs_marker_in_a_and_b : ConfigCache.FileSystem :=
  listedFileSystem [["a"; ".config"]; ["a"; "b"; ".config"]].

(** The fixtures of the [ConfigCache] test, below the test's directory. *)
Definition CONFIG_FILE_NAME : string := ".test_nuclide_config_file".
Definition noConfigFolder : list string := ["spec"; "fixtures"].
Definition rootFolder : list string := ["spec"; "fixtures"; "ConfigCache"].
Definition rootFile : list string := ["spec"; "fixtures"; "ConfigCache"; "file"].
Definition nestedFolder : list string :=
  ["spec"; "fixtures"; "ConfigCache"; "testFolder"].
Definition nestedFile : list string :=
  ["spec"; "fixtures"; "ConfigCache"; "testFolder"; "file"].
Definition fixtures : ConfigCache.FileSystem :=
  listedFileSystem [(rootFolder ++ [CONFIG_FILE_NAME])%list; rootFile; nestedFile].

(** ** Readings of the specification that the code is tested against *)

(** What the change handler is to guarantee, that unsaved edits are never
    overwritten: a replaced text means [text == cachedDiskContents] held
    when the notification arrived, and unsaved edits together with a remote
    change that no short-circuit absorbs yield a conflict event and the text
    as it was. *)
Definition reload_only_without_local_edits : Prop :=
  forall (contents : string) (b : NuclideTextBuffer),
    let b' := after (onDidChange id (Fulfilled contents) b) in
    (text b' <> text b -> Some (text b) = cachedDiskContents b) /\
    (Some (text b) <> cachedDiskContents b ->
     cachedDiskContents b <> Some contents ->
     _pendingSaveContents b <> Some contents ->
     text b' = text b /\
     trace b' = (trace b ++ [ModifiedStatusChanged true; FileRead; DidConflict])%list).


(** The first half of the consistency property read for every marker
    placement: whenever a directory [a] holds the marker file, every start
    directory below it (or [a] itself) is answered [a]. *)
Definition any_marked_ancestor_is_the_answer : Prop :=
  forall (fs : ConfigCache.FileSystem) (configFileName : string)
         (a below : list string),
    ConfigCache.hasConfigFile fs configFileName a = true ->
    ConfigCache.startDirectory fs (a ++ below)%list = (a ++ below)%list ->
    (ConfigCache.getConfigDir fs configFileName (a ++ below)%list ∅).1 = Some a.

(** ** Runs of operations *)

(** A run performs its operations one after the other. *)
Definition run (ops : list Operation) (b : NuclideTextBuffer) : NuclideTextBuffer :=
  foldl (fun acc op => perform op acc) b ops.

(** The operations in which a write is fulfilled. *)
Definition isFulfilledSave (op : Operation) : bool :=
  match op with
  | OpSaveAsSettle _ _ (Fulfilled _) => true
  | _ => false
  end.

Definition fulfilledSaves (ops : list Operation) : N :=
  N.of_nat (length (filter (fun op => isFulfilledSave op = true) ops)).

(** The operations through which text can be replaced: the host's
    [setText] and [reload], [setTextViaDiff], and the second half of a
    change reconciliation. *)
Definition replacesText (op : Operation) : bool :=
  match op with
  | OpSetText _ | OpSetTextViaDiff _ | OpReload | OpChangeSettle _ _ => true
  | _ => false
  end.

(** The operations that can destroy the buffer. *)
Definition destroys (op : Operation) : bool :=
  match op with
  | OpDestroy | OpDelete | OpMaybeDestroy => true
  | _ => false
  end.

(** The operations of a save. *)
Definition isSave (op : Operation) : bool :=
  match op with
  | OpSaveAsStart _ | OpSaveAsSettle _ _ _ => true
  | _ => false
  end.

(** ** More buffers to run the methods on *)

(** The clean buffer before any file was bound to it. *)
Definition unbound_buffer : NuclideTextBuffer :=
  set_fileSubscriptions None (set_file None clean_buffer).

(** A connection whose [createFile] hands back [null]. *)
Definition null_connection : ServerConnection :=
  {| conn_createFile := fun _ => None;
     getUriOfRemotePath := fun filePath => "nuclide://host" ++ filePath |}.

(** An unbound buffer on that connection. *)
Definition fileless_buffer : NuclideTextBuffer :=
  mkBuffer "unsaved" None true false false false None "utf8" None None
    (Some null_connection) true 0 None [].

(** The clean buffer with a policy that declines destruction. *)
Definition kept_buffer : NuclideTextBuffer :=
  mkBuffer "on disk" (Some "on disk") true false true false (Some false) "utf8"
    (Some (mkRemoteFile "/f" "utf8")) (Some Active)
    (Some sample_connection) true 0 None [].

(** ** RemoteDirectoryProvider *)

Module RemoteDirectoryProvider.

(** The prefix a URI must have for the provider to try to produce a
    [RemoteDirectory] for it. *)
Definition REMOTE_PATH_URI_PREFIX : string := "nuclide://".

(** [s.startsWith(p)] *)
Fixpoint startsWith (p s : string) : bool :=
  match p with
  | EmptyString => true
  | String c p' =>
      match s with
      | EmptyString => false
      | String c' s' => bool_decide (c = c') && startsWith p' s'
      end
  end.

Section Provider.

(** [RemoteConnection] and [RemoteDirectory] come from
    'nuclide-remote-connection': the registry lookup and the constructor of
    directories are taken as they come. *)
Variable RemoteConnection : Type.
Variable RemoteDirectory : Type.
Variable getForUri : string -> option RemoteConnection.
Variable createDirectory : RemoteConnection -> string -> RemoteDirectory.

Definition directoryForURISync (uri : string) : option RemoteDirectory :=
  if negb (startsWith REMOTE_PATH_URI_PREFIX uri) then None
  else
    match getForUri uri with
    | Some connection => Some (createDirectory connection uri)
    | None => None
    end.

(** [Promise.resolve(this.directoryForURISync(uri))] *)
Definition directoryForURI (uri : string) : Settled (option RemoteDirectory) :=
  Fulfilled (directoryForURISync uri).

End Provider.

End RemoteDirectoryProvider.

(** * Proofs *)

(** ** Proof support *)

(** Unfold the monad so that a method body becomes a plain expression on
    the buffer. *)
Ltac unfold_act :=
  unfold completion, after, mbind, Act_bind, mret, Act_ret, try_catch,
    invariant, emit, update, throw, this in *.

(** Decide the tests a method body branches on. *)
Ltac branch :=
  repeat first
    [ progress simpl in *
    | progress unfold_act
    | case_bool_decide
    | case_match
    | progress simplify_eq ].

Lemma onDidChange_start_eq (b : NuclideTextBuffer) :
  onDidChange_start b =
    (Normal (mkSnapshot (cachedDiskContents b) (_saveID b)),
     record_effect FileRead
       ((if _isModified b then set_conflict true else id)
          (record_effect (ModifiedStatusChanged (_isModified b)) b))).
Proof.
  unfold onDidChange_start, updateCachedDiskContents_start,
    TextBuffer.updateCachedDiskContents_start,
    TextBuffer.emitModifiedStatusChanged.
  unfold_act. destruct (_isModified b); reflexivity.
Qed.

Lemma updateCachedDiskContents_settle_fulfilled (contents : string)
    (b : NuclideTextBuffer) :
  updateCachedDiskContents_settle (Fulfilled contents) b =
    (Normal tt, set_exists true (set_cachedDiskContents (Some contents) b)).
Proof. reflexivity. Qed.

Lemma updateCachedDiskContents_settle_rejected (e : JsError)
    (b : NuclideTextBuffer) :
  updateCachedDiskContents_settle (Rejected e) b = (Throw e, set_exists false b).
Proof. reflexivity. Qed.

Lemma setPath_frame (filePath : string) (b : NuclideTextBuffer) :
  let b' := after (setPath filePath b) in
  text b' = text b /\ cachedDiskContents b' = cachedDiskContents b /\
  conflict b' = conflict b /\ _saveID b' = _saveID b /\
  _pendingSaveContents b' = _pendingSaveContents b /\
  destroyed b' = destroyed b.
Proof.
  unfold setPath, subscribeToFile, createFile. branch; auto 10.
Qed.

Lemma saveAs_start_awaiting (filePath toSaveContents : string)
    (b b1 : NuclideTextBuffer) :
  saveAs_start filePath b = (Normal (AwaitingWrite toSaveContents), b1) ->
  filePath <> "" /\ toSaveContents = text b /\
  b1 = record_effect (FileWrite toSaveContents)
         (set_pendingSaveContents (Some toSaveContents)
            (after (setPath filePath (record_effect (WillSave filePath) b)))).
Proof.
  unfold saveAs_start, saveAs_catch, saveAs_finished.
  pose proof (setPath_frame filePath (record_effect (WillSave filePath) b)) as Hframe.
  destruct (setPath filePath (record_effect (WillSave filePath) b))
    as [[[]|e] b2] eqn:Hset;
    simpl in Hframe; destruct Hframe as (Htext & _);
    intros H; branch; auto.
Qed.

Lemma saveAs_settle_fulfilled (filePath toSaveContents : string)
    (b : NuclideTextBuffer) :
  saveAs_settle filePath toSaveContents (Fulfilled tt) b =
    (Normal tt,
     record_effect (Track filePath true)
       (set_pendingSaveContents None
          (record_effect (DidSave filePath)
             (record_effect (ModifiedStatusChanged false)
                (set_conflict false
                   (set_saveID (_saveID b + 1)%N
                      (set_cachedDiskContents (Some toSaveContents) b))))))).
Proof. reflexivity. Qed.

Lemma saveAs_settle_rejected (filePath toSaveContents : string) (e : JsError)
    (b : NuclideTextBuffer) :
  let r := saveAs_settle filePath toSaveContents (Rejected e) b in
  completion r = Normal tt /\
  text (after r) = text b /\
  cachedDiskContents (after r) = cachedDiskContents b /\
  conflict (after r) = conflict b /\
  _saveID (after r) = _saveID b /\
  _pendingSaveContents (after r) = None /\
  trace (after r) =
    (trace b
     ++ [if instanceof_RpcTimeoutError e then LoggerError e else LoggerFatal e]
     ++ (if destroyed b then [WorkspaceOpenUntitled toSaveContents] else [])
     ++ [NotificationsAddError
           ("Failed to save remote file " ++ filePath ++ ": " ++
            (if destroyed b
             then message e ++ "<br><br>Opening a new tab with your unsaved changes."
             else message e))%string;
         Track filePath false])%list.
Proof.
  unfold saveAs_settle, saveAs_catch, saveAs_finished. unfold_act. simpl.
  destruct (destroyed b) eqn:Hd; simpl; rewrite ?Hd; simpl;
    rewrite <- ?app_assoc; simpl; auto 10.
Qed.

Lemma perform_saveID_le (op : Operation) (b : NuclideTextBuffer) :
  (_saveID b <= _saveID (perform op b))%N.
Proof.
  destruct op; simpl;
    unfold saveAs_start, saveAs_settle, saveAs_written, saveAs_catch,
      saveAs_finished, setPath, subscribeToFile, createFile,
      onDidChange_start, onDidChange_settle, onDidDelete,
      onWillThrowWatchError, _maybeDestroy, setTextViaDiff,
      updateCachedDiskContentsSync, updateCachedDiskContents_start,
      updateCachedDiskContents_settle, TextBuffer.setText, TextBuffer.setTextViaDiff, TextBuffer.reload,
      TextBuffer.destroy, TextBuffer.emitModifiedStatusChanged,
      TextBuffer.updateCachedDiskContents_start,
      TextBuffer.updateCachedDiskContents_settle;
    branch; lia.
Qed.

(** The change handler with nothing interleaved, once the read is
    fulfilled: a short-circuit, a conflict, or a reload. *)
Lemma onDidChange_fulfilled (contents : string) (b : NuclideTextBuffer) :
  let b1 := after (onDidChange_start b) in
  let refreshed := set_exists true (set_cachedDiskContents (Some contents) b1) in
  onDidChange id (Fulfilled contents) b =
    (Normal tt,
     if bool_decide (cachedDiskContents b = Some contents)
        || bool_decide (_pendingSaveContents b = Some contents)
     then set_conflict false refreshed
     else if _isModified b || conflict b
          then record_effect DidConflict refreshed
          else record_effect Reloaded (set_text contents refreshed)).
Proof.
  unfold onDidChange. unfold_act. rewrite onDidChange_start_eq.
  unfold onDidChange_settle. unfold_act.
  rewrite updateCachedDiskContents_settle_fulfilled.
  unfold TextBuffer.reload. unfold_act.
  destruct (_isModified b), (conflict b) eqn:Hc; simpl; rewrite ?Hc;
    repeat case_bool_decide; simpl; try reflexivity; congruence.
Qed.

(** ** Change notifications *)

(** C1, the code at the failing input.  [stale_buffer] is reached from the
    clean buffer by a change notification whose read is rejected, which sets
    [_exists] to false, followed by an edit.  There the text differs from
    [cachedDiskContents], as the test of the delete handler would report,
    but [_isModified] answers false because the file is believed absent and
    no delete was observed.  The next change notification, which no
    short-circuit absorbs, therefore raises no conflict and reloads: the
    unsaved text is replaced by what was read. *)
Theorem change_reloads_over_unsaved_edits :
  let arrived := stale_buffer in
  let b' := after (onDidChange id (Fulfilled "remote") arrived) in
  perform (OpSetText "local edits")
    (perform (OpChangeSettle (mkSnapshot (Some "on disk") 0)
                (Rejected (RpcTimeoutError "timed out")))
       (perform OpChangeStart clean_buffer)) = arrived /\
  (text arrived = "local edits" /\
   cachedDiskContents arrived = Some "on disk" /\
   bool_decide (Some (TextBuffer.getText arrived) <> cachedDiskContents arrived)
     = true) /\
  (_exists arrived = false /\ wasModifiedBeforeRemove arrived = false /\
   _isModified arrived = false /\ conflict arrived = false) /\
  (_pendingSaveContents arrived = None /\ _saveID b' = _saveID arrived) /\
  (text b' = "remote" /\
   conflict b' = false /\
   trace b' = (trace arrived ++ [ModifiedStatusChanged false; FileRead; Reloaded])%list) /\
  ~ reload_only_without_local_edits.
Proof.
  cbv zeta.
  repeat split; try (vm_compute; reflexivity).
  intros Hall.
  destruct (Hall "remote" stale_buffer) as [Hreplaced _].
  vm_compute in Hreplaced.
  assert (Hne : "remote" <> "local edits") by discriminate.
  specialize (Hreplaced Hne). discriminate Hreplaced.
Qed.

(** C2: if a save completed while the refresh was outstanding (the
    generation seen after the refresh differs from the one recorded before
    it), the reconciliation clears [conflict] and stops: whatever was read,
    nothing is emitted and nothing is reloaded. *)
Theorem save_during_refresh_clears_conflict
    (meanwhile : NuclideTextBuffer -> NuclideTextBuffer) (contents : string)
    (b b1 : NuclideTextBuffer) (snapshot : ChangeSnapshot) :
  onDidChange_start b = (Normal snapshot, b1) ->
  _saveID (meanwhile b1) <> previousSaveID snapshot ->
  let refreshed :=
    after (updateCachedDiskContents_settle (Fulfilled contents) (meanwhile b1)) in
  let result := onDidChange meanwhile (Fulfilled contents) b in
  result = (Normal tt, set_conflict false refreshed) /\
  previousSaveID snapshot = _saveID b /\
  conflict (after result) = false /\
  text (after result) = text (meanwhile b1) /\
  trace (after result) = trace (meanwhile b1) /\
  cachedDiskContents (after result) = Some contents.
Proof.
  intros Hstart Hgen. cbv zeta.
  assert (Hsnap : previousSaveID snapshot = _saveID b).
  { rewrite onDidChange_start_eq in Hstart. by simplify_eq. }
  assert (Hrun : onDidChange meanwhile (Fulfilled contents) b =
    (Normal tt, set_conflict false
       (after (updateCachedDiskContents_settle (Fulfilled contents) (meanwhile b1))))).
  { unfold onDidChange. unfold_act. rewrite Hstart.
    unfold onDidChange_settle. unfold_act.
    rewrite updateCachedDiskContents_settle_fulfilled. simpl.
    rewrite bool_decide_eq_true_2 by assumption. reflexivity. }
  rewrite Hrun. auto 10.
Qed.

Lemma save_during_refresh_clears_conflict_witness :
  conflict (after (onDidChange save_completes (Fulfilled "remote") edited_buffer))
    = false /\
  text (after (onDidChange save_completes (Fulfilled "remote") edited_buffer))
    = "local edits".
Proof.
  pose proof (save_during_refresh_clears_conflict save_completes "remote"
                edited_buffer _ _ (onDidChange_start_eq edited_buffer)) as H.
  cbv zeta in H.
  destruct H as (_ & _ & Hconflict & Htext & _).
  - vm_compute. discriminate.
  - split; [exact Hconflict | exact Htext].
Defined.

(** ** Saving *)

(** C3: when the write of a save is fulfilled, [cachedDiskContents] is the
    snapshot that was written (the text at the start of the save), [conflict]
    is false, [_saveID] is one more than it was, and [_pendingSaveContents] is
    absent; no operation ever lowers [_saveID]. *)
Theorem successful_save
    (filePath toSaveContents : string) (b b1 settling : NuclideTextBuffer) :
  saveAs_start filePath b = (Normal (AwaitingWrite toSaveContents), b1) ->
  let result := saveAs_settle filePath toSaveContents (Fulfilled tt) settling in
  toSaveContents = text b /\
  _pendingSaveContents b1 = Some toSaveContents /\
  last (trace b1) = Some (FileWrite toSaveContents) /\
  _saveID b1 = _saveID b /\
  completion result = Normal tt /\
  cachedDiskContents (after result) = Some toSaveContents /\
  conflict (after result) = false /\
  _saveID (after result) = (_saveID settling + 1)%N /\
  _pendingSaveContents (after result) = None /\
  (forall (op : Operation) (any : NuclideTextBuffer),
     (_saveID any <= _saveID (perform op any))%N).
Proof.
  intros Hstart. cbv zeta.
  apply saveAs_start_awaiting in Hstart as (_ & Htext & ->).
  rewrite saveAs_settle_fulfilled.
  pose proof (setPath_frame filePath (record_effect (WillSave filePath) b))
    as (_ & _ & _ & Hid & _).
  repeat split; auto using perform_saveID_le.
  simpl. apply last_snoc.
Qed.

Lemma successful_save_witness :
  cachedDiskContents (after (saveAs id (Fulfilled tt) "/f" edited_buffer))
    = Some "local edits" /\
  _saveID (after (saveAs id (Fulfilled tt) "/f" edited_buffer)) = 1%N.
Proof.
  pose proof (successful_save "/f" "local edits" edited_buffer _
                (after (saveAs_start "/f" edited_buffer)) eq_refl) as H.
  cbv zeta in H.
  destruct H as (_ & _ & _ & _ & _ & Hcached & _ & Hid & _).
  split; [exact Hcached | exact Hid].
Defined.

(** C6: a save with an empty target path throws at once; no will-save
    event, no rebinding of the path, no write: the buffer is as it was. *)
Theorem save_with_empty_path_fails
    (meanwhile : NuclideTextBuffer -> NuclideTextBuffer) (w : Settled unit)
    (b : NuclideTextBuffer) :
  saveAs_start "" b = (Throw (Error "Can't save buffer with no file path"), b) /\
  saveAs meanwhile w "" b =
    (Throw (Error "Can't save buffer with no file path"), b).
Proof. split; reflexivity. Qed.

(** C7: when the write of a save is rejected, [conflict],
    [cachedDiskContents] and [_saveID] stay what they were (at the start of
    the save, and again from the moment the write settles),
    [_pendingSaveContents] is cleared, and the error goes to the logger and
    to [atom.notifications] while [saveAs] itself completes normally; if the
    buffer was destroyed in the meantime an untitled editor is opened with
    the snapshot. *)
Theorem failed_save
    (filePath toSaveContents : string) (e : JsError)
    (b b1 settling : NuclideTextBuffer) :
  saveAs_start filePath b = (Normal (AwaitingWrite toSaveContents), b1) ->
  let result := saveAs_settle filePath toSaveContents (Rejected e) settling in
  toSaveContents = text b /\
  (conflict b1 = conflict b /\
   cachedDiskContents b1 = cachedDiskContents b /\
   _saveID b1 = _saveID b) /\
  completion result = Normal tt /\
  (conflict (after result) = conflict settling /\
   cachedDiskContents (after result) = cachedDiskContents settling /\
   _saveID (after result) = _saveID settling) /\
  _pendingSaveContents (after result) = None /\
  trace (after result) =
    (trace settling
     ++ [if instanceof_RpcTimeoutError e then LoggerError e else LoggerFatal e]
     ++ (if destroyed settling then [WorkspaceOpenUntitled toSaveContents] else [])
     ++ [NotificationsAddError
           ("Failed to save remote file " ++ filePath ++ ": " ++
            (if destroyed settling
             then message e ++ "<br><br>Opening a new tab with your unsaved changes."
             else message e))%string;
         Track filePath false])%list.
Proof.
  intros Hstart. cbv zeta.
  apply saveAs_start_awaiting in Hstart as (_ & Htext & ->).
  pose proof (setPath_frame filePath (record_effect (WillSave filePath) b))
    as (_ & Hcached & Hconflict & Hid & _).
  pose proof (saveAs_settle_rejected filePath toSaveContents e settling) as Hsettle.
  cbv zeta in Hsettle.
  destruct Hsettle as (Hc & _ & Hcached' & Hconflict' & Hid' & Hpending & Htrace).
  repeat split; auto.
Qed.

Lemma failed_save_witness :
  conflict (after (saveAs (set_destroyed true) (Rejected (RpcTimeoutError "timed out"))
                     "/f" edited_buffer)) = false /\
  trace (after (saveAs (set_destroyed true) (Rejected (RpcTimeoutError "timed out"))
                  "/f" edited_buffer)) =
    [WillSave "/f"; FileWrite "local edits";
     LoggerError (RpcTimeoutError "timed out");
     WorkspaceOpenUntitled "local edits";
     NotificationsAddError
       "Failed to save remote file /f: timed out<br><br>Opening a new tab with your unsaved changes.";
     Track "/f" false].
Proof.
  pose proof (failed_save "/f" "local edits" (RpcTimeoutError "timed out")
                edited_buffer _
                (set_destroyed true (after (saveAs_start "/f" edited_buffer)))
                eq_refl) as H.
  cbv zeta in H.
  destruct H as (_ & _ & _ & (Hconflict & _) & _ & Htrace).
  split; [exact Hconflict | exact Htrace].
Defined.

(** ** Refreshing the cached disk contents *)

(** C8: when the read of a change reconciliation is rejected, [_exists]
    becomes false and the handler throws the read error to whoever called
    it, with [conflict] as the first step of the handler (and whatever ran
    meanwhile) left it; when the read is fulfilled, [_exists] becomes
    true. *)
Theorem refresh_outcome_sets_exists
    (meanwhile : NuclideTextBuffer -> NuclideTextBuffer)
    (e : JsError) (contents : string) (b : NuclideTextBuffer) :
  let b1 := after (onDidChange_start b) in
  updateCachedDiskContents_settle (Rejected e) b = (Throw e, set_exists false b) /\
  onDidChange meanwhile (Rejected e) b = (Throw e, set_exists false (meanwhile b1)) /\
  conflict (after (onDidChange meanwhile (Rejected e) b)) = conflict (meanwhile b1) /\
  conflict b1 = (if _isModified b then true else conflict b) /\
  _exists (after (updateCachedDiskContents_settle (Fulfilled contents) b)) = true /\
  completion (onDidChange meanwhile (Fulfilled contents) b) = Normal tt /\
  _exists (after (onDidChange meanwhile (Fulfilled contents) b)) = true.
Proof.
  cbv zeta. unfold onDidChange. unfold_act.
  rewrite onDidChange_start_eq. unfold onDidChange_settle. unfold_act.
  rewrite updateCachedDiskContents_settle_fulfilled,
    updateCachedDiskContents_settle_rejected.
  cbn [fst snd].
  repeat split.
  - destruct (_isModified b); reflexivity.
  - unfold TextBuffer.reload; branch; reflexivity.
  - unfold TextBuffer.reload; branch; reflexivity.
Qed.

(** C10: the synchronous refresh throws on every call and leaves the buffer
    as it was; the asynchronous one issues a read and, once that is
    fulfilled, stores what was read. *)
Theorem updateCachedDiskContentsSync_throws
    (contents : string) (b : NuclideTextBuffer) :
  updateCachedDiskContentsSync b =
    (Throw (Error "updateCachedDiskContentsSync isn't supported in NuclideTextBuffer"),
     b) /\
  (let started := updateCachedDiskContents_start b in
   let settled := updateCachedDiskContents_settle (Fulfilled contents) (after started) in
   completion started = Normal tt /\
   trace (after started) = (trace b ++ [FileRead])%list /\
   completion settled = Normal tt /\
   cachedDiskContents (after settled) = Some contents).
Proof.
  split.
  - unfold updateCachedDiskContentsSync, throw. reflexivity.
  - cbv zeta. rewrite updateCachedDiskContents_settle_fulfilled.
    unfold updateCachedDiskContents_start,
      TextBuffer.updateCachedDiskContents_start.
    unfold_act. simpl. auto.
Qed.

(** ** Delete notifications *)

(** C4: on a delete notification [_exists] becomes false and
    [wasModifiedBeforeRemove] records whether the text differed from
    [cachedDiskContents]; the text is never touched.  With edits the buffer
    is not destroyed and a read of the file is issued; without edits the
    buffer is destroyed if the policy applies, and soft-deleted otherwise. *)
Theorem delete_notification (b : NuclideTextBuffer) :
  let result := onDidDelete b in
  let modified := bool_decide (Some (text b) <> cachedDiskContents b) in
  completion result = Normal tt /\
  _exists (after result) = false /\
  wasModifiedBeforeRemove (after result) = modified /\
  text (after result) = text b /\
  if modified then
    destroyed (after result) = destroyed b /\
    cachedDiskContents (after result) = cachedDiskContents b /\
    trace (after result) = (trace b ++ [FileRead])%list
  else if destroyOnFileDelete b then
    destroyed (after result) = true /\
    trace (after result) = (trace b ++ [Destroyed])%list
  else
    destroyed (after result) = destroyed b /\
    conflict (after result) = false /\
    cachedDiskContents (after result) = None.
Proof.
  cbv zeta.
  unfold onDidDelete, _maybeDestroy, destroyOnFileDelete,
    updateCachedDiskContents_start, TextBuffer.updateCachedDiskContents_start,
    TextBuffer.destroy, TextBuffer.emitModifiedStatusChanged,
    TextBuffer.getText.
  unfold_act. simpl.
  destruct (bool_decide (Some (text b) <> cachedDiskContents b)); simpl.
  - auto 10.
  - destruct (shouldDestroyOnFileDelete b) as [[]|], (fileSubscriptions b);
      simpl; auto 10.
Qed.

(** ** Replacing the text *)

(** Every line feed ends a line. *)
Lemma countOccurrences_LF_le_lineEndings (s : string) :
  (countOccurrences s TextBuffer.LF <= TextBuffer.lineEndings s)%N.
Proof.
  induction s as [|c rest IH]; simpl; [lia|].
  case_bool_decide; [lia|].
  case_bool_decide; [|assumption].
  destruct rest as [|c' rest']; [simpl; lia|].
  case_bool_decide; lia.
Qed.

(** The two tests of [setTextViaDiff], as the code makes them. *)
Lemma setTextViaDiff_eq (newText : string) (b : NuclideTextBuffer) :
  setTextViaDiff newText b =
    if bool_decide (DIFF_LINE_LIMIT < TextBuffer.getLineCount b)%N
       || bool_decide (DIFF_LINE_LIMIT < countOccurrences newText TextBuffer.LF)%N
    then TextBuffer.setText newText b
    else TextBuffer.setTextViaDiff newText b.
Proof.
  unfold setTextViaDiff. unfold_act.
  destruct (_ || _); reflexivity.
Qed.

(** A buffer of more than [DIFF_LINE_LIMIT] lines is replaced wholesale
    whatever the new text is. *)
Lemma setTextViaDiff_long_buffer (newText : string) (b : NuclideTextBuffer) :
  (DIFF_LINE_LIMIT < TextBuffer.getLineCount b)%N ->
  setTextViaDiff newText b = TextBuffer.setText newText b.
Proof.
  intros H. rewrite setTextViaDiff_eq.
  by rewrite bool_decide_eq_true_2.
Qed.

(** The scenario of the 10001-line buffer that receives five lines. *)
Example setTextViaDiff_10001_lines_receives_5 :
  let b := set_text (blankLines 10000) clean_buffer in
  let b' := after (setTextViaDiff fiveLines b) in
  TextBuffer.getLineCount b = 10001%N /\
  TextBuffer.getLineCount b' = 5%N /\
  trace b' = [ReplacedWholesale].
Proof. vm_compute. auto. Qed.

(** C5, the code at the failing input: a one-line buffer receives a text of
    10001 lines, one line over the limit, and the text is handed to the
    host's line diff, because the incoming text is measured in line feeds
    (10000 of them) and not in lines. *)
Theorem setTextViaDiff_incoming_10001_lines_is_diffed :
  let b := clean_buffer in
  let newText := blankLines 10000 in
  TextBuffer.getLineCount b = 1%N /\
  TextBuffer.getLineCount (set_text newText b) = 10001%N /\
  countOccurrences newText TextBuffer.LF = 10000%N /\
  setTextViaDiff newText b = TextBuffer.setTextViaDiff newText b /\
  trace (after (setTextViaDiff newText b)) = [ReplacedViaDiff].
Proof.
  cbv zeta.
  assert (Hcount : countOccurrences (blankLines 10000) TextBuffer.LF = 10000%N)
    by (vm_compute; reflexivity).
  assert (Hdiff : setTextViaDiff (blankLines 10000) clean_buffer =
                  TextBuffer.setTextViaDiff (blankLines 10000) clean_buffer).
  { rewrite setTextViaDiff_eq, Hcount. reflexivity. }
  rewrite Hdiff.
  repeat split; try assumption; vm_compute; reflexivity.
Qed.

(** The off-by-one in general: a new text with exactly [DIFF_LINE_LIMIT]
    line feeds has more than [DIFF_LINE_LIMIT] lines, and is still diffed
    into a buffer that is itself within the limit. *)
Lemma setTextViaDiff_one_line_over (newText : string) (b : NuclideTextBuffer) :
  (TextBuffer.getLineCount b <= DIFF_LINE_LIMIT)%N ->
  countOccurrences newText TextBuffer.LF = DIFF_LINE_LIMIT ->
  (DIFF_LINE_LIMIT < TextBuffer.getLineCount (set_text newText b))%N /\
  setTextViaDiff newText b = TextBuffer.setTextViaDiff newText b.
Proof.
  intros Hb Hnew. split.
  - pose proof (countOccurrences_LF_le_lineEndings newText).
    unfold TextBuffer.getLineCount. simpl. lia.
  - rewrite setTextViaDiff_eq, Hnew.
    rewrite !bool_decide_eq_false_2 by lia. reflexivity.
Qed.


(** ** Facts about the upward walk *)

Section ConfigCacheFacts.

Import ConfigCache.
Local Open Scope list_scope.

Variable fs : FileSystem.
Variable configFileName : string.

Local Abbreviation hasConfigFile := (hasConfigFile fs configFileName).
Local Abbreviation nearest := (nearest fs configFileName).
Local Abbreviation coherent := (coherent fs configFileName).
Local Abbreviation walk := (walk fs configFileName).
Local Abbreviation getConfigDir := (getConfigDir fs configFileName).

Lemma ancestors_snoc (parent : Path) (segment : string) :
  ancestors (parent ++ [segment]) =
    (parent ++ [segment]) :: ancestors parent.
Proof.
  unfold ancestors. rewrite rev_unit. simpl.
  by rewrite rev_involutive.
Qed.

Lemma ancestors_head (dir : Path) :
  exists above, ancestors dir = dir :: above.
Proof.
  unfold ancestors.
  assert (Hhead : forall r, exists above, upward r = rev r :: above)
    by (intros []; simpl; eauto).
  destruct (Hhead (rev dir)) as [above ->].
  rewrite rev_involutive. eauto.
Qed.

Lemma nearest_rev (innermostFirst : list string) :
  nearest (rev innermostFirst) = find hasConfigFile (upward innermostFirst).
Proof.
  unfold ConfigCache.nearest, ancestors. by rewrite rev_involutive.
Qed.

Lemma lookup_recordAll (answer : option Path) (dirs : list Path)
    (cache : Cache) (key : Path) :
  recordAll answer dirs cache !! key =
    if decide (key ∈ dirs) then Some answer else cache !! key.
Proof.
  induction dirs as [|dir dirs IH]; simpl.
  - destruct (decide (key ∈ [])) as [Hin|]; [|done].
    by apply elem_of_nil in Hin.
  - rewrite lookup_insert. destruct (decide (dir = key)) as [->|Hne].
    + rewrite decide_True by (apply elem_of_cons; by left). done.
    + rewrite IH. destruct (decide (key ∈ dirs)) as [Hin|Hnin].
      * rewrite decide_True by (apply elem_of_cons; by right). done.
      * rewrite decide_False; [done|].
        intros [?|?]%elem_of_cons; congruence.
Qed.

Lemma coherent_empty : coherent ∅.
Proof. intros dir answer H. by rewrite lookup_empty in H. Qed.

Lemma coherent_recordAll (answer : option Path) (dirs : list Path)
    (cache : Cache) :
  coherent cache ->
  (forall dir, dir ∈ dirs -> nearest dir = answer) ->
  coherent (recordAll answer dirs cache).
Proof.
  intros Hcache Hdirs key found. rewrite lookup_recordAll.
  case_decide; intros Hfound.
  - simplify_eq. symmetry. by apply Hdirs.
  - by apply Hcache.
Qed.

(** The walk answers what a cache-less search of the same directories
    answers, and it leaves a coherent cache behind. *)
Lemma walk_spec (innermostFirst : list string) :
  forall (visited : list Path) (cache : Cache),
    coherent cache ->
    (forall dir, dir ∈ visited ->
       nearest dir = find hasConfigFile (upward innermostFirst)) ->
    (walk (upward innermostFirst) visited cache).1
      = find hasConfigFile (upward innermostFirst) /\
    coherent (walk (upward innermostFirst) visited cache).2.
Proof.
  induction innermostFirst as [|segment parent IH];
    intros visited cache Hcache Hvisited.
  - cbn [upward ConfigCache.walk] in *.
    destruct (cache !! rev []) as [answer|] eqn:Hlookup.
    + split; [|done]. apply Hcache in Hlookup. subst.
      by rewrite nearest_rev.
    + cbn [find] in *.
      destruct (hasConfigFile (rev [])) eqn:Hmarker; cbn [fst snd].
      * split; [done|]. apply coherent_recordAll; [done|].
        intros dir [->|Hin]%elem_of_cons; [|by apply Hvisited].
        rewrite nearest_rev. cbn [upward find]. by rewrite Hmarker.
      * split; [done|]. apply coherent_recordAll; [done|].
        intros dir [->|Hin]%elem_of_cons; [|by apply Hvisited].
        rewrite nearest_rev. cbn [upward find]. by rewrite Hmarker.
  - cbn [upward ConfigCache.walk] in *.
    destruct (cache !! rev (segment :: parent)) as [answer|] eqn:Hlookup.
    + split; [|done]. apply Hcache in Hlookup. subst.
      rewrite nearest_rev. reflexivity.
    + cbn [find] in *.
      destruct (hasConfigFile (rev (segment :: parent))) eqn:Hmarker;
        cbn [fst snd].
      * split; [done|]. apply coherent_recordAll; [done|].
        intros dir [->|Hin]%elem_of_cons; [|by apply Hvisited].
        rewrite nearest_rev. cbn [upward find]. by rewrite Hmarker.
      * apply IH; [done|].
        intros dir [->|Hin]%elem_of_cons; [|by apply Hvisited].
        rewrite nearest_rev. cbn [upward find]. by rewrite Hmarker.
Qed.

Lemma getConfigDir_nearest (startPath : Path) (cache : Cache) :
  coherent cache ->
  (getConfigDir startPath cache).1
    = nearest (startDirectory fs startPath) /\
  coherent (getConfigDir startPath cache).2.
Proof.
  intros Hcache. unfold ConfigCache.getConfigDir, ConfigCache.nearest, ancestors.
  apply walk_spec; [done|]. intros dir Hin. by apply elem_of_nil in Hin.
Qed.

(** The marker in [a], and in no directory from [a ++ below] up to but
    excluding [a]: the nearest configuration directory is [a]. *)
Lemma nearest_descendant (a below : Path) :
  hasConfigFile a = true ->
  (forall n, 0 < n <= length below ->
     hasConfigFile (a ++ take n below) = false) ->
  nearest (a ++ below) = Some a.
Proof.
  intros Ha. induction below as [|segment below IH] using rev_ind;
    intros Hbelow.
  - rewrite app_nil_r. unfold ConfigCache.nearest.
    destruct (ancestors_head a) as [above ->]. simpl. by rewrite Ha.
  - unfold ConfigCache.nearest in *.
    rewrite app_assoc, ancestors_snoc. cbn [find].
    rewrite <- app_assoc.
    pose proof (Hbelow (length (below ++ [segment]))) as Hlast.
    rewrite firstn_all in Hlast. rewrite Hlast.
    + apply IH. intros n Hn.
      specialize (Hbelow n). rewrite take_app_le in Hbelow by lia.
      apply Hbelow. rewrite length_app. simpl. lia.
    + rewrite length_app. simpl. lia.
Qed.

(** C9, amended: on a cache that agrees with the filesystem, if [a] holds
    the marker file and no directory from the start directory up to but
    excluding [a] holds it, [getConfigDir] answers [a] and leaves a cache
    that still agrees; and a start path that names a file is searched
    from its parent directory, so the file and the directory that contains
    it get the same answer. *)
Theorem getConfigDir_nearest_marked_ancestor
    (cache cache' : Cache) (a below startPath : Path) :
  coherent cache ->
  coherent cache' ->
  hasConfigFile a = true ->
  (forall n, 0 < n <= length below ->
     hasConfigFile (a ++ take n below) = false) ->
  startDirectory fs startPath = a ++ below ->
  (getConfigDir startPath cache).1 = Some a /\
  coherent (getConfigDir startPath cache).2 /\
  (forall file : Path,
     fs_isFile fs file = true ->
     fs_isFile fs (dirname file) = false ->
     startDirectory fs file = dirname file /\
     (getConfigDir file cache).1 = (getConfigDir (dirname file) cache').1).
Proof.
  intros Hcache Hcache' Ha Hbelow Hstart.
  destruct (getConfigDir_nearest startPath cache Hcache) as [Hanswer Hafter].
  split; [|split; [assumption|]].
  - rewrite Hanswer, Hstart. by apply nearest_descendant.
  - intros file Hfile Hparent.
    assert (Hdir : startDirectory fs file = dirname file)
      by (unfold startDirectory; by rewrite Hfile).
    split; [assumption|].
    rewrite (proj1 (getConfigDir_nearest file cache Hcache)).
    rewrite (proj1 (getConfigDir_nearest (dirname file) cache' Hcache')).
    rewrite Hdir. unfold startDirectory. by rewrite Hparent.
Qed.

End ConfigCacheFacts.

(** The five expectations of the test, on one cache, in the test's order. *)
Example ConfigCache_test :
  let getConfigDir := ConfigCache.getConfigDir fixtures CONFIG_FILE_NAME in
  let r1 := getConfigDir noConfigFolder ∅ in
  let r2 := getConfigDir rootFolder r1.2 in
  let r3 := getConfigDir rootFile r2.2 in
  let r4 := getConfigDir nestedFolder r3.2 in
  let r5 := getConfigDir nestedFile r4.2 in
  r1.1 = None /\ r2.1 = Some rootFolder /\ r3.1 = Some rootFolder /\
  r4.1 = Some rootFolder /\ r5.1 = Some rootFolder.
Proof. vm_compute. auto. Qed.

(** C9, as stated, fails: with the marker file in [/a] and in [/a/b], the
    start path [/a/b/c] is answered [/a/b], the nearer of the two. *)
Lemma any_marked_ancestor_is_the_answer_fails :
  ~ any_marked_ancestor_is_the_answer.
Proof.
  intros Hall.
  specialize (Hall fs_marker_in_a_and_b ".config" ["a"] ["b"; "c"] eq_refl eq_refl).
  vm_compute in Hall. discriminate Hall.
Qed.

Lemma getConfigDir_nearest_marked_ancestor_witness :
  (ConfigCache.getConfigDir fs_marker_in_a ".config" ["a"; "b"; "c"] ∅).1
    = Some ["a"] /\
  (ConfigCache.getConfigDir fs_marker_in_a ".config" ["a"; "b"]
     (ConfigCache.getConfigDir fs_marker_in_a ".config" ["a"; "b"; "c"] ∅).2).1
    = Some ["a"] /\
  (ConfigCache.getConfigDir fs_marker_in_a ".config" ["a"; "b"; "c"; "file"] ∅).1
    = (ConfigCache.getConfigDir fs_marker_in_a ".config" ["a"; "b"; "c"] ∅).1.
Proof.
  pose proof (getConfigDir_nearest_marked_ancestor fs_marker_in_a ".config"
                ∅ ∅ ["a"] ["b"; "c"] ["a"; "b"; "c"]) as H.
  destruct H as (Hanswer & Hcoherent & Hfile).
  - apply coherent_empty.
  - apply coherent_empty.
  - reflexivity.
  - intros [|[|[|n]]] Hn; simpl in *; try reflexivity; lia.
  - reflexivity.
  - split; [exact Hanswer|]. split.
    + apply (getConfigDir_nearest_marked_ancestor fs_marker_in_a ".config"
               _ ∅ ["a"] ["b"] ["a"; "b"]).
      * exact Hcoherent.
      * apply coherent_empty.
      * reflexivity.
      * intros [|[|n]] Hn; simpl in *; try reflexivity; lia.
      * reflexivity.
    + apply (Hfile ["a"; "b"; "c"; "file"]); reflexivity.
Defined.

(** * Further properties of the class *)

(** ** Proof support *)

Ltac unfold_methods :=
  unfold saveAs, saveAs_start, saveAs_settle, saveAs_written, saveAs_catch,
    saveAs_finished, setPath, subscribeToFile, createFile,
    onDidChange_start, onDidChange_settle, onDidDelete,
    onWillThrowWatchError, _maybeDestroy, setTextViaDiff,
    updateCachedDiskContentsSync, updateCachedDiskContents_start,
    updateCachedDiskContents_settle, TextBuffer.setText,
    TextBuffer.setTextViaDiff, TextBuffer.reload, TextBuffer.destroy,
    TextBuffer.emitModifiedStatusChanged,
    TextBuffer.updateCachedDiskContents_start,
    TextBuffer.updateCachedDiskContents_settle in *.

(** The change handler, whatever ran while the read was outstanding, once
    the read is fulfilled. *)
Lemma onDidChange_meanwhile_fulfilled
    (meanwhile : NuclideTextBuffer -> NuclideTextBuffer)
    (contents : string) (b : NuclideTextBuffer) :
  let settling := meanwhile (after (onDidChange_start b)) in
  let refreshed := set_exists true (set_cachedDiskContents (Some contents) settling) in
  onDidChange meanwhile (Fulfilled contents) b =
    (Normal tt,
     if bool_decide (_saveID settling <> _saveID b)
        || bool_decide (cachedDiskContents b = Some contents)
        || bool_decide (_pendingSaveContents settling = Some contents)
     then set_conflict false refreshed
     else if conflict settling
          then record_effect DidConflict refreshed
          else record_effect Reloaded (set_text contents refreshed)).
Proof.
  cbv zeta. unfold onDidChange. unfold_act. rewrite onDidChange_start_eq.
  unfold onDidChange_settle. unfold_act.
  rewrite updateCachedDiskContents_settle_fulfilled.
  unfold TextBuffer.reload. unfold_act. cbn [fst snd].
  set (settling := meanwhile _).
  simpl.
  destruct (bool_decide (_saveID settling <> _saveID b)); simpl; [reflexivity|].
  destruct (bool_decide (cachedDiskContents b = Some contents)); simpl;
    [reflexivity|].
  destruct (bool_decide (_pendingSaveContents settling = Some contents)); simpl;
    [reflexivity|].
  destruct (conflict settling); reflexivity.
Qed.

(** ** Binding the buffer to a path *)

(** X1: [setPath] completes normally on every path and every buffer, and
    touches neither the text nor any of the synchronization fields. *)
Theorem setPath_completes_and_frames (filePath : string) (b : NuclideTextBuffer) :
  let result := setPath filePath b in
  completion result = Normal tt /\
  text (after result) = text b /\
  cachedDiskContents (after result) = cachedDiskContents b /\
  conflict (after result) = conflict b /\
  _exists (after result) = _exists b /\
  _saveID (after result) = _saveID b /\
  _pendingSaveContents (after result) = _pendingSaveContents b /\
  wasModifiedBeforeRemove (after result) = wasModifiedBeforeRemove b /\
  destroyed (after result) = destroyed b.
Proof.
  cbv zeta. unfold setPath, subscribeToFile, createFile.
  branch; try (exfalso; eauto; fail); auto 12.
Qed.

Lemma setPath_normal (filePath : string) (b : NuclideTextBuffer) :
  exists b', setPath filePath b = (Normal tt, b').
Proof.
  unfold setPath, subscribeToFile, createFile.
  branch; try (exfalso; eauto; fail); eauto.
Qed.

(** X2: on a buffer that already has a file, [setPath] with a different
    path renames the file in place (to the URI of the remote path, keeping
    its encoding) or, with the empty path, unbinds it; either way the
    subscriptions are left as they were and did-change-path is emitted
    with the new path. *)
Theorem setPath_on_bound_buffer
    (filePath : string) (connection : ServerConnection) (f : RemoteFile)
    (b : NuclideTextBuffer) :
  _connection b = Some connection ->
  file b = Some f ->
  file_path f <> filePath ->
  let b' := after (setPath filePath b) in
  file b' =
    (if bool_decide (filePath = "") then None
     else Some (mkRemoteFile (getUriOfRemotePath connection filePath)
                  (file_encoding f))) /\
  fileSubscriptions b' = fileSubscriptions b /\
  trace b' = (trace b ++ [DidChangePath (TextBuffer.getPath b')])%list.
Proof.
  intros Hconn Hfile Hpath. cbv zeta.
  unfold setPath, TextBuffer.getPath. unfold_act.
  rewrite Hconn, Hfile. simpl.
  repeat case_bool_decide; simplify_eq; simpl; auto; contradiction.
Qed.

Lemma setPath_on_bound_buffer_witness :
  file (after (setPath "/g" clean_buffer))
    = Some (mkRemoteFile "nuclide://host/g" "utf8") /\
  fileSubscriptions (after (setPath "/g" clean_buffer)) = Some Active.
Proof.
  pose proof (setPath_on_bound_buffer "/g" sample_connection
                (mkRemoteFile "/f" "utf8") clean_buffer eq_refl eq_refl) as H.
  cbv zeta in H. destruct H as (Hfile & Hsubs & _).
  - discriminate.
  - split; [exact Hfile | exact Hsubs].
Defined.

(** X3: on a buffer without a file, [setPath] with a non-empty path binds
    the file the connection creates, gives it the buffer's encoding and
    subscribes to it; if the connection creates none the buffer stays
    unbound and unsubscribed.  did-change-path is emitted either way. *)
Theorem setPath_on_unbound_buffer
    (filePath : string) (connection : ServerConnection) (b : NuclideTextBuffer) :
  _connection b = Some connection ->
  file b = None ->
  filePath <> "" ->
  let b' := after (setPath filePath b) in
  match conn_createFile connection filePath with
  | Some f =>
      file b' = Some (mkRemoteFile (file_path f) (encoding b)) /\
      fileSubscriptions b' = Some Active /\
      trace b' = (trace b ++ [DidChangePath (Some (file_path f))])%list
  | None =>
      file b' = None /\
      fileSubscriptions b' = fileSubscriptions b /\
      trace b' = (trace b ++ [DidChangePath None])%list
  end.
Proof.
  intros Hconn Hfile Hpath. cbv zeta.
  unfold setPath, subscribeToFile, createFile, TextBuffer.getPath,
    TextBuffer.getEncoding.
  unfold_act. rewrite Hconn, Hfile. simpl.
  rewrite (bool_decide_eq_true_2 (filePath <> "")) by assumption.
  destruct (conn_createFile connection filePath) as [f|]; simpl.
  - destruct (fileSubscriptions b); simpl; auto.
  - auto.
Qed.

Lemma setPath_on_unbound_buffer_witness :
  file (after (setPath "/g" unbound_buffer)) = Some (mkRemoteFile "/g" "utf8") /\
  fileSubscriptions (after (setPath "/g" unbound_buffer)) = Some Active /\
  trace (after (setPath "/g" unbound_buffer)) = [DidChangePath (Some "/g")].
Proof.
  apply (setPath_on_unbound_buffer "/g" sample_connection unbound_buffer
           eq_refl eq_refl).
  discriminate.
Defined.

(** X4: [subscribeToFile] on a buffer with a file ends with live
    subscriptions and changes nothing else; on a buffer without a file it
    throws the assertion error, after having disposed the subscriptions
    there were. *)
Theorem subscribeToFile_outcome (b : NuclideTextBuffer) :
  subscribeToFile b =
    match file b with
    | Some _ => (Normal tt, set_fileSubscriptions (Some Active) b)
    | None =>
        (Throw (AssertionError "Cannot subscribe to no-file"),
         match fileSubscriptions b with
         | Some _ => set_fileSubscriptions (Some Disposed) b
         | None => b
         end)
    end.
Proof.
  unfold subscribeToFile. unfold_act.
  destruct (file b) as [f|] eqn:Hfile, (fileSubscriptions b) eqn:Hsubs; simpl;
    rewrite ?Hfile; reflexivity.
Qed.

(** ** Saving, beyond the two outcomes of the write *)

(** X5: a save to a non-empty path on a buffer for which no file can be
    bound (no connection, or a connection that creates none) attempts no
    write: the failed [invariant] is caught, logged as fatal and shown as an
    error notification, and [saveAs] completes normally with the buffer's
    text and synchronization fields as they were. *)
Theorem saveAs_without_file
    (meanwhile : NuclideTextBuffer -> NuclideTextBuffer) (w : Settled unit)
    (filePath : string) (b : NuclideTextBuffer) :
  filePath <> "" ->
  file b = None ->
  match _connection b with
  | Some connection => conn_createFile connection filePath = None
  | None => True
  end ->
  let result := saveAs meanwhile w filePath b in
  completion result = Normal tt /\
  trace (after result) =
    (trace b ++ [WillSave filePath]
     ++ match _connection b with Some _ => [DidChangePath None] | None => [] end
     ++ [LoggerFatal (AssertionError "Cannot save an null file!")]
     ++ (if destroyed b then [WorkspaceOpenUntitled (text b)] else [])
     ++ [NotificationsAddError
           ("Failed to save remote file " ++ filePath ++ ": " ++
            (if destroyed b
             then "Cannot save an null file!<br><br>Opening a new tab with your unsaved changes."
             else "Cannot save an null file!"))%string;
         Track filePath false])%list /\
  text (after result) = text b /\
  cachedDiskContents (after result) = cachedDiskContents b /\
  conflict (after result) = conflict b /\
  _saveID (after result) = _saveID b /\
  _pendingSaveContents (after result) = None.
Proof.
  intros Hpath Hfile Hconn. cbv zeta.
  unfold saveAs, saveAs_start, saveAs_catch, saveAs_finished, setPath,
    createFile, TextBuffer.getPath, TextBuffer.getText.
  unfold_act.
  rewrite (bool_decide_eq_false_2 (filePath = "")) by assumption.
  simpl. rewrite Hfile.
  destruct (_connection b) as [connection|] eqn:Hc; simpl.
  - rewrite (bool_decide_eq_true_2 (filePath <> "")) by assumption.
    rewrite Hconn. simpl.
    destruct (destroyed b) eqn:Hd; simpl; rewrite ?Hd; simpl;
      rewrite <- ?app_assoc; simpl; auto 10.
  - rewrite Hfile. simpl.
    destruct (destroyed b) eqn:Hd; simpl; rewrite ?Hd; simpl;
      rewrite <- ?app_assoc; simpl; auto 10.
Qed.

Lemma saveAs_without_file_witness :
  completion (saveAs id (Fulfilled tt) "/g" fileless_buffer) = Normal tt /\
  trace (after (saveAs id (Fulfilled tt) "/g" fileless_buffer)) =
    [WillSave "/g"; DidChangePath None;
     LoggerFatal (AssertionError "Cannot save an null file!");
     NotificationsAddError "Failed to save remote file /g: Cannot save an null file!";
     Track "/g" false].
Proof.
  pose proof (saveAs_without_file id (Fulfilled tt) "/g" fileless_buffer) as H.
  cbv zeta in H. destruct H as (Hc & Htrace & _).
  - discriminate.
  - reflexivity.
  - reflexivity.
  - split; [exact Hc | exact Htrace].
Defined.

(** X6: whatever the write does and whatever happens meanwhile, a save to a
    non-empty path never throws; it ends with [_pendingSaveContents] absent
    and with the [track] call as its last act. *)
Theorem saveAs_never_throws
    (meanwhile : NuclideTextBuffer -> NuclideTextBuffer) (w : Settled unit)
    (filePath : string) (b : NuclideTextBuffer) :
  filePath <> "" ->
  let result := saveAs meanwhile w filePath b in
  completion result = Normal tt /\
  _pendingSaveContents (after result) = None /\
  exists success : bool,
    last (trace (after result)) = Some (Track filePath success).
Proof.
  intros Hpath. cbv zeta.
  unfold saveAs, saveAs_start, saveAs_settle, saveAs_written, saveAs_catch,
    saveAs_finished, TextBuffer.emitModifiedStatusChanged.
  unfold_act.
  rewrite (bool_decide_eq_false_2 (filePath = "")) by assumption.
  destruct (setPath_normal filePath (record_effect (WillSave filePath) b))
    as [b2 Hset].
  simpl. rewrite Hset. clear Hset.
  branch;
    (split; [reflexivity | split; [reflexivity|]]);
    eexists; apply last_snoc.
Qed.

Lemma saveAs_never_throws_witness :
  completion (saveAs (set_destroyed true) (Rejected (Error "EIO")) "/f" edited_buffer)
    = Normal tt.
Proof.
  apply (saveAs_never_throws (set_destroyed true) (Rejected (Error "EIO")) "/f"
           edited_buffer).
  discriminate.
Defined.

Lemma perform_saveID_exact (op : Operation) (b : NuclideTextBuffer) :
  _saveID (perform op b) =
    (_saveID b + if isFulfilledSave op then 1 else 0)%N.
Proof.
  destruct op; simpl; unfold_methods; branch; lia.
Qed.

(** X7: over any run of operations, [_saveID] grows by exactly the number
    of saves whose write was fulfilled. *)
Theorem saveID_counts_fulfilled_saves
    (ops : list Operation) (b : NuclideTextBuffer) :
  _saveID (run ops b) = (_saveID b + fulfilledSaves ops)%N.
Proof.
  unfold run, fulfilledSaves. revert b.
  induction ops as [|op ops IH]; intros b.
  - simpl. lia.
  - cbn [foldl]. rewrite IH, perform_saveID_exact, filter_cons.
    case_decide as Hop.
    + rewrite Hop. cbn [length]. lia.
    + destruct (isFulfilledSave op); [congruence | lia].
Qed.

(** X8: after a fulfilled save of a text that is still the buffer's text, a
    buffer with a file reads as unmodified provided the file is believed to
    exist; [saveAs] does not set [_exists], so a loaded buffer whose file was
    deleted while it had edits still reads as modified unless it is
    empty. *)
Theorem saved_buffer_isModified
    (filePath toSaveContents : string) (b : NuclideTextBuffer) :
  text b = toSaveContents ->
  is_Some (file b) ->
  _isModified (after (saveAs_settle filePath toSaveContents (Fulfilled tt) b)) =
    negb (_exists b) && loaded b && wasModifiedBeforeRemove b
    && negb (TextBuffer.isEmpty b).
Proof.
  intros Htext [f Hfile]. rewrite saveAs_settle_fulfilled.
  unfold _isModified, TextBuffer.getText, TextBuffer.isEmpty, after. simpl.
  rewrite Hfile, Htext.
  destruct (loaded b), (_exists b), (wasModifiedBeforeRemove b); simpl;
    try reflexivity.
  - by rewrite bool_decide_eq_false_2 by (intros H; by apply H).
  - by rewrite bool_decide_eq_false_2 by (intros H; by apply H).
Qed.

Lemma saved_buffer_isModified_witness :
  _isModified (after (saveAs_settle "/f" "local edits" (Fulfilled tt) edited_buffer))
    = false.
Proof.
  apply (saved_buffer_isModified "/f" "local edits" edited_buffer).
  - reflexivity.
  - eexists. reflexivity.
Defined.

(** ** Change notifications, beyond the generation check *)

(** X9: a change notification whose read brings nothing new, either what
    was cached when the notification arrived or what a save in flight is
    writing when the read settles, is absorbed: [conflict] is cleared,
    nothing is emitted and the text is not touched, whatever ran
    meanwhile. *)
Theorem change_with_known_contents_is_absorbed
    (meanwhile : NuclideTextBuffer -> NuclideTextBuffer)
    (contents : string) (b : NuclideTextBuffer) :
  let settling := meanwhile (after (onDidChange_start b)) in
  cachedDiskContents b = Some contents \/
  _pendingSaveContents settling = Some contents ->
  onDidChange meanwhile (Fulfilled contents) b =
    (Normal tt,
     set_conflict false
       (set_exists true (set_cachedDiskContents (Some contents) settling))).
Proof.
  cbv zeta. intros Hknown. rewrite onDidChange_meanwhile_fulfilled. cbv zeta.
  destruct Hknown as [H|H]; rewrite (bool_decide_eq_true_2 _ H);
    rewrite ?orb_true_r; reflexivity.
Qed.

Lemma change_with_known_contents_is_absorbed_witness :
  onDidChange id (Fulfilled "on disk") clean_buffer =
    (Normal tt,
     set_conflict false
       (set_exists true
          (set_cachedDiskContents (Some "on disk")
             (after (onDidChange_start clean_buffer))))).
Proof.
  apply (change_with_known_contents_is_absorbed id "on disk" clean_buffer).
  left. reflexivity.
Defined.

(** X10: the change notification that a save's own write causes is
    absorbed in either order.  If it is reconciled while the write is still
    outstanding, the read matches [_pendingSaveContents]; if it is reconciled
    after the save completed, the read matches [cachedDiskContents].  Both
    ways [conflict] ends false, the text is the one that was saved, and only
    the modified-status event and the read are observed. *)
Theorem save_echo_is_absorbed
    (filePath toSaveContents : string) (b b1 : NuclideTextBuffer) :
  saveAs_start filePath b = (Normal (AwaitingWrite toSaveContents), b1) ->
  let early := after (onDidChange id (Fulfilled toSaveContents) b1) in
  let saved := after (saveAs_settle filePath toSaveContents (Fulfilled tt) b1) in
  let late := after (onDidChange id (Fulfilled toSaveContents) saved) in
  (conflict early = false /\ text early = text b /\
   trace early =
     (trace b1 ++ [ModifiedStatusChanged (_isModified b1); FileRead])%list) /\
  (conflict late = false /\ text late = text b /\
   trace late =
     (trace saved ++ [ModifiedStatusChanged (_isModified saved); FileRead])%list).
Proof.
  intros Hstart. cbv zeta.
  apply saveAs_start_awaiting in Hstart as (_ & Htext & ->).
  pose proof (setPath_frame filePath (record_effect (WillSave filePath) b))
    as (Hsame & _).
  rewrite !onDidChange_fulfilled. cbv zeta.
  rewrite !onDidChange_start_eq, saveAs_settle_fulfilled.
  unfold after in *. cbn [snd].
  split.
  - rewrite (bool_decide_eq_true_2
               (_pendingSaveContents _ = Some toSaveContents)) by reflexivity.
    rewrite orb_true_r.
    match goal with |- context [_isModified ?x] => destruct (_isModified x) end;
      simpl in *; rewrite <- ?app_assoc; auto.
  - rewrite (bool_decide_eq_true_2
               (cachedDiskContents _ = Some toSaveContents)) by reflexivity.
    cbn [orb].
    match goal with |- context [_isModified ?x] => destruct (_isModified x) end;
      simpl in *; rewrite <- ?app_assoc; auto.
Qed.

Lemma save_echo_is_absorbed_witness :
  conflict (after (onDidChange id (Fulfilled "local edits")
                     (after (saveAs_start "/f" edited_buffer)))) = false /\
  text (after (onDidChange id (Fulfilled "local edits")
                 (after (saveAs id (Fulfilled tt) "/f" edited_buffer))))
    = "local edits".
Proof.
  pose proof (save_echo_is_absorbed "/f" "local edits" edited_buffer
                (after (saveAs_start "/f" edited_buffer)) eq_refl) as H.
  cbv zeta in H. destruct H as ((Hearly & _) & (_ & Hlate & _)).
  split; [exact Hearly | exact Hlate].
Defined.

(** X11: a remote change that lands on a buffer that is neither modified
    nor in conflict reloads it: afterwards the text and the cached disk
    contents are both what was read, the file is believed to exist, and a
    buffer with a file reads as unmodified. *)
Theorem change_reloads_clean_buffer (contents : string) (b : NuclideTextBuffer) :
  _isModified b = false ->
  conflict b = false ->
  cachedDiskContents b <> Some contents ->
  _pendingSaveContents b <> Some contents ->
  let b' := after (onDidChange id (Fulfilled contents) b) in
  text b' = contents /\
  cachedDiskContents b' = Some contents /\
  _exists b' = true /\
  conflict b' = false /\
  trace b' = (trace b ++ [ModifiedStatusChanged false; FileRead; Reloaded])%list /\
  _isModified b' =
    match file b with
    | Some _ => false
    | None => loaded b && negb (bool_decide (contents = ""))
    end.
Proof.
  intros Hm Hc Hcached Hpending. cbv zeta.
  rewrite onDidChange_fulfilled. cbv zeta. rewrite onDidChange_start_eq.
  rewrite Hm, Hc.
  rewrite (bool_decide_eq_false_2 _ Hcached), (bool_decide_eq_false_2 _ Hpending).
  unfold after, _isModified, TextBuffer.getText, TextBuffer.isEmpty. simpl.
  rewrite <- !app_assoc. simpl.
  repeat split; try assumption.
  destruct (loaded b), (file b); simpl; try reflexivity.
  by rewrite bool_decide_eq_false_2 by (intros H; by apply H).
Qed.

Lemma change_reloads_clean_buffer_witness :
  text (after (onDidChange id (Fulfilled "remote") clean_buffer)) = "remote" /\
  cachedDiskContents (after (onDidChange id (Fulfilled "remote") clean_buffer))
    = Some "remote".
Proof.
  pose proof (change_reloads_clean_buffer "remote" clean_buffer) as H.
  cbv zeta in H. destruct H as (Htext & Hcached & _).
  - reflexivity.
  - reflexivity.
  - discriminate.
  - discriminate.
  - split; [exact Htext | exact Hcached].
Defined.

(** X12: once [conflict] is set, a further independent remote change is
    reported as a conflict, modified or not, and is never reloaded;
    [conflict] stays set while [cachedDiskContents] moves on to what was
    read. *)
Theorem conflict_persists_across_changes (contents : string) (b : NuclideTextBuffer) :
  conflict b = true ->
  cachedDiskContents b <> Some contents ->
  _pendingSaveContents b <> Some contents ->
  let b' := after (onDidChange id (Fulfilled contents) b) in
  text b' = text b /\
  conflict b' = true /\
  cachedDiskContents b' = Some contents /\
  trace b' =
    (trace b ++ [ModifiedStatusChanged (_isModified b); FileRead; DidConflict])%list.
Proof.
  intros Hc Hcached Hpending. cbv zeta.
  rewrite onDidChange_fulfilled. cbv zeta. rewrite onDidChange_start_eq.
  rewrite Hc, orb_true_r.
  rewrite (bool_decide_eq_false_2 _ Hcached), (bool_decide_eq_false_2 _ Hpending).
  unfold after. simpl.
  destruct (_isModified b); simpl; rewrite <- !app_assoc; auto.
Qed.

Lemma conflict_persists_across_changes_witness :
  text (after (onDidChange id (Fulfilled "remote") (set_conflict true clean_buffer)))
    = "on disk" /\
  conflict (after (onDidChange id (Fulfilled "remote") (set_conflict true clean_buffer)))
    = true.
Proof.
  pose proof (conflict_persists_across_changes "remote"
                (set_conflict true clean_buffer)) as H.
  cbv zeta in H. destruct H as (Htext & Hconflict & _).
  - reflexivity.
  - discriminate.
  - discriminate.
  - split; [exact Htext | exact Hconflict].
Defined.

(** ** What the operations never do *)

(** X13: [conflict] is only ever raised by the first half of a change
    reconciliation, and only on a buffer that [_isModified] finds
    modified. *)
Theorem conflict_raised_only_by_change_on_modified
    (op : Operation) (b : NuclideTextBuffer) :
  conflict b = false ->
  conflict (perform op b) = true ->
  op = OpChangeStart /\ _isModified b = true.
Proof.
  intros Hbefore Hafter.
  destruct op; simpl in Hafter;
    try (exfalso; unfold_methods; branch; congruence).
  rewrite onDidChange_start_eq in Hafter. unfold after in Hafter.
  destruct (_isModified b); simpl in Hafter; [auto | congruence].
Qed.

Lemma conflict_raised_only_by_change_on_modified_witness :
  OpChangeStart = OpChangeStart /\ _isModified edited_buffer = true.
Proof.
  apply (conflict_raised_only_by_change_on_modified OpChangeStart edited_buffer);
    reflexivity.
Defined.

(** X14: the text is replaced only through the host's [setText] and
    [reload], [setTextViaDiff] and the second half of a change
    reconciliation; saving, rebinding the path, refreshing the cached
    contents, delete and watch-error notifications leave it alone. *)
Theorem text_kept_by_other_operations (op : Operation) (b : NuclideTextBuffer) :
  replacesText op = false ->
  text (perform op b) = text b.
Proof.
  intros Hop.
  destruct op; try discriminate Hop; simpl;
    unfold_methods; branch; reflexivity.
Qed.

Lemma text_kept_by_other_operations_witness :
  text (perform OpDelete edited_buffer) = "local edits" /\
  text (perform (OpSaveAsSettle "/f" "local edits" (Rejected (Error "EIO")))
          edited_buffer) = "local edits".
Proof.
  split.
  - apply (text_kept_by_other_operations OpDelete edited_buffer). reflexivity.
  - apply (text_kept_by_other_operations
             (OpSaveAsSettle "/f" "local edits" (Rejected (Error "EIO")))
             edited_buffer).
    reflexivity.
Defined.

Lemma perform_destroyed (op : Operation) (b : NuclideTextBuffer) :
  destroyed (perform op b) = destroyed b \/
  (destroys op = true /\ destroyed (perform op b) = true).
Proof.
  destruct op; simpl; unfold_methods; branch; auto.
Qed.

(** X15: a destroyed buffer stays destroyed through any run of operations,
    and only the host's [destroy], a delete notification and
    [_maybeDestroy] can destroy a buffer. *)
Theorem destroyed_is_permanent (ops : list Operation) (op : Operation)
    (b : NuclideTextBuffer) :
  (destroyed b = true -> destroyed (run ops b) = true) /\
  (destroys op = false -> destroyed (perform op b) = destroyed b).
Proof.
  split.
  - unfold run. revert b.
    induction ops as [|op' ops IH]; intros b Hb; [assumption|].
    cbn [foldl]. apply IH.
    destruct (perform_destroyed op' b) as [H|[_ H]]; congruence.
  - intros Hop.
    destruct (perform_destroyed op b) as [H|[H _]]; congruence.
Qed.

Lemma destroyed_is_permanent_witness :
  destroyed (run [OpSetPath "/g"; OpSaveAsStart "/g"; OpChangeStart]
               (perform OpDelete clean_buffer)) = true /\
  destroyed (perform (OpSaveAsStart "/g") clean_buffer) = false.
Proof.
  split.
  - apply (proj1 (destroyed_is_permanent
                    [OpSetPath "/g"; OpSaveAsStart "/g"; OpChangeStart]
                    OpDelete (perform OpDelete clean_buffer))).
    reflexivity.
  - apply (proj2 (destroyed_is_permanent [] (OpSaveAsStart "/g") clean_buffer)).
    reflexivity.
Defined.

(** X16: [_pendingSaveContents] is written by the two halves of [saveAs]
    and by nothing else. *)
Theorem pendingSaveContents_written_only_by_saves
    (op : Operation) (b : NuclideTextBuffer) :
  isSave op = false ->
  _pendingSaveContents (perform op b) = _pendingSaveContents b.
Proof.
  intros Hop.
  destruct op; try discriminate Hop; simpl;
    unfold_methods; branch; reflexivity.
Qed.

Lemma pendingSaveContents_written_only_by_saves_witness :
  _pendingSaveContents
    (perform (OpChangeSettle (mkSnapshot (Some "on disk") 0) (Fulfilled "remote"))
       (after (saveAs_start "/f" edited_buffer)))
    = Some "local edits".
Proof.
  apply (pendingSaveContents_written_only_by_saves
           (OpChangeSettle (mkSnapshot (Some "on disk") 0) (Fulfilled "remote"))
           (after (saveAs_start "/f" edited_buffer))).
  reflexivity.
Defined.

(** ** Delete notifications, beyond the destroy decision *)

(** X17: a delete notification on a buffer without edits whose policy
    declines destruction soft-deletes it: the subscriptions are disposed,
    the file stays bound, the text is kept, and the modified-status event
    reports whether the text is non-empty. *)
Theorem delete_soft_deletes (b : NuclideTextBuffer) :
  Some (text b) = cachedDiskContents b ->
  shouldDestroyOnFileDelete b = Some false ->
  let b' := after (onDidDelete b) in
  file b' = file b /\
  text b' = text b /\
  fileSubscriptions b' =
    match fileSubscriptions b with
    | Some _ => Some Disposed
    | None => None
    end /\
  _exists b' = false /\
  wasModifiedBeforeRemove b' = false /\
  trace b' =
    (trace b ++ [ModifiedStatusChanged (negb (TextBuffer.isEmpty b))])%list.
Proof.
  intros Hclean Hpolicy. cbv zeta.
  unfold onDidDelete, _maybeDestroy, TextBuffer.emitModifiedStatusChanged,
    TextBuffer.getText, TextBuffer.isEmpty.
  unfold_act. simpl.
  rewrite (bool_decide_eq_false_2 (Some (text b) <> cachedDiskContents b))
    by (intros H; by apply H).
  simpl. rewrite Hpolicy.
  destruct (fileSubscriptions b) eqn:Hsubs; simpl; rewrite ?Hsubs; auto 10.
Qed.

Lemma delete_soft_deletes_witness :
  file (after (onDidDelete kept_buffer)) = Some (mkRemoteFile "/f" "utf8") /\
  fileSubscriptions (after (onDidDelete kept_buffer)) = Some Disposed /\
  trace (after (onDidDelete kept_buffer)) = [ModifiedStatusChanged true].
Proof.
  pose proof (delete_soft_deletes kept_buffer eq_refl eq_refl) as H.
  cbv zeta in H. destruct H as (Hfile & _ & Hsubs & _ & _ & Htrace).
  split; [exact Hfile | split; [exact Hsubs | exact Htrace]].
Defined.

(** X18: after a delete notification on a buffer with edits, the refresh
    that was started settles on its own.  If the read is rejected the error
    is thrown, the cached contents stay, and a loaded buffer reads as
    modified exactly when its text is non-empty; if the read is fulfilled
    the file is believed to exist again and the cached contents are what
    was read.  The text is kept either way. *)
Theorem delete_with_edits_then_refresh (r : Settled string) (b : NuclideTextBuffer) :
  Some (text b) <> cachedDiskContents b ->
  let result := updateCachedDiskContents_settle r (after (onDidDelete b)) in
  text (after result) = text b /\
  match r with
  | Rejected e =>
      completion result = Throw e /\
      _exists (after result) = false /\
      cachedDiskContents (after result) = cachedDiskContents b /\
      _isModified (after result) = loaded b && negb (TextBuffer.isEmpty b)
  | Fulfilled contents =>
      completion result = Normal tt /\
      _exists (after result) = true /\
      cachedDiskContents (after result) = Some contents
  end.
Proof.
  intros Hedits. cbv zeta.
  unfold onDidDelete, updateCachedDiskContents_start,
    TextBuffer.updateCachedDiskContents_start, TextBuffer.getText.
  unfold_act. simpl.
  rewrite (bool_decide_eq_true_2 _ Hedits). simpl.
  destruct r as [contents|e].
  - rewrite updateCachedDiskContents_settle_fulfilled. simpl. auto.
  - rewrite updateCachedDiskContents_settle_rejected. simpl.
    repeat split.
    unfold _isModified, TextBuffer.isEmpty, TextBuffer.getText. simpl.
    destruct (loaded b), (file b); reflexivity.
Qed.

Lemma delete_with_edits_then_refresh_witness :
  _isModified
    (after (updateCachedDiskContents_settle (Rejected (Error "ENOENT"))
              (after (onDidDelete edited_buffer)))) = true.
Proof.
  pose proof (delete_with_edits_then_refresh (Rejected (Error "ENOENT"))
                edited_buffer) as H.
  cbv zeta in H. destruct H as (_ & _ & _ & _ & Hmodified).
  - discriminate.
  - exact Hmodified.
Defined.

(** ** Replacing the text, on either side of the limit *)

(** X19: [setTextViaDiff] never throws and always ends with the new text,
    leaving the cached contents and [conflict] alone; a buffer of more than
    [DIFF_LINE_LIMIT] lines, or a new text with more than [DIFF_LINE_LIMIT]
    line feeds, is replaced wholesale. *)
Theorem setTextViaDiff_replaces (newText : string) (b : NuclideTextBuffer) :
  let result := setTextViaDiff newText b in
  completion result = Normal tt /\
  text (after result) = newText /\
  cachedDiskContents (after result) = cachedDiskContents b /\
  conflict (after result) = conflict b /\
  ((DIFF_LINE_LIMIT < TextBuffer.getLineCount b)%N \/
   (DIFF_LINE_LIMIT < countOccurrences newText TextBuffer.LF)%N ->
   trace (after result) = (trace b ++ [ReplacedWholesale])%list).
Proof.
  cbv zeta. rewrite setTextViaDiff_eq.
  unfold TextBuffer.setText, TextBuffer.setTextViaDiff. unfold_act.
  repeat split; try (destruct (_ || _); reflexivity).
  intros [H|H]; rewrite (bool_decide_eq_true_2 _ H), ?orb_true_r; reflexivity.
Qed.

Lemma setTextViaDiff_replaces_witness :
  trace (after (setTextViaDiff (blankLines 10001) clean_buffer))
    = [ReplacedWholesale].
Proof.
  apply (setTextViaDiff_replaces (blankLines 10001) clean_buffer).
  right. vm_compute. reflexivity.
Defined.

(** ** RemoteDirectoryProvider *)

Lemma startsWith_app (p s : string) :
  RemoteDirectoryProvider.startsWith p s = true <->
  exists rest, s = (p ++ rest)%string.
Proof.
  revert s. induction p as [|c p IH]; intros s; simpl.
  - split; eauto.
  - destruct s as [|c' s]; simpl.
    + split; [discriminate | intros [rest H]; discriminate H].
    + rewrite andb_true_iff, bool_decide_eq_true, IH. split.
      * intros [-> [rest ->]]. eauto.
      * intros [rest H]. injection H as -> ->. eauto.
Qed.

(** X20: [directoryForURISync] produces a directory exactly for a URI that
    starts with [nuclide://] and has a connection in the registry, and the
    directory is the one that connection creates for the URI; every other
    URI, local paths among them, gets [null]. *)
Theorem directoryForURISync_some
    (RemoteConnection RemoteDirectory : Type)
    (getForUri : string -> option RemoteConnection)
    (createDirectory : RemoteConnection -> string -> RemoteDirectory)
    (uri : string) (directory : RemoteDirectory) :
  RemoteDirectoryProvider.directoryForURISync _ _ getForUri createDirectory uri
    = Some directory <->
  exists (rest : string) (connection : RemoteConnection),
    uri = ("nuclide://" ++ rest)%string /\
    getForUri uri = Some connection /\
    directory = createDirectory connection uri.
Proof.
  unfold RemoteDirectoryProvider.directoryForURISync.
  destruct (RemoteDirectoryProvider.startsWith _ uri) eqn:Hprefix; simpl.
  - apply startsWith_app in Hprefix as [rest Hrest].
    destruct (getForUri uri) as [connection|] eqn:Hconn; split.
    + intros [= <-]. eauto.
    + intros (rest' & connection' & _ & [= <-] & ->). reflexivity.
    + discriminate.
    + intros (rest' & connection' & _ & Hc & _). discriminate Hc.
  - split; [discriminate|].
    intros (rest & connection & Huri & _).
    assert (Hyes : RemoteDirectoryProvider.startsWith
                     RemoteDirectoryProvider.REMOTE_PATH_URI_PREFIX uri = true)
      by (apply startsWith_app; eauto).
    congruence.
Qed.

(** ** Edits made while a refresh is outstanding *)

(** X21: the handler looks for local edits only when the notification
    arrives.  If the buffer was then neither modified nor in conflict, text
    that the host sets while the read is outstanding is not noticed: when
    the read brings new contents the buffer is reloaded and ends with what
    was read. *)
Theorem edits_during_refresh_are_reloaded_over
    (typed contents : string) (b : NuclideTextBuffer) :
  _isModified b = false ->
  conflict b = false ->
  cachedDiskContents b <> Some contents ->
  _pendingSaveContents b <> Some contents ->
  let edit := fun buffer => after (TextBuffer.setText typed buffer) in
  let b' := after (onDidChange edit (Fulfilled contents) b) in
  text b' = contents /\
  conflict b' = false /\
  trace b' =
    (trace b ++ [ModifiedStatusChanged false; FileRead; ReplacedWholesale;
                 Reloaded])%list.
Proof.
  intros Hm Hc Hcached Hpending. cbv zeta.
  rewrite onDidChange_meanwhile_fulfilled. cbv zeta.
  rewrite onDidChange_start_eq, Hm.
  unfold TextBuffer.setText. unfold_act. simpl.
  rewrite (bool_decide_eq_false_2 (_saveID b <> _saveID b))
    by (intros H; by apply H).
  rewrite (bool_decide_eq_false_2 _ Hcached), (bool_decide_eq_false_2 _ Hpending).
  simpl. rewrite Hc. simpl. rewrite <- !app_assoc. auto.
Qed.

Lemma edits_during_refresh_are_reloaded_over_witness :
  text (after (onDidChange (fun buffer => after (TextBuffer.setText "typed" buffer))
                 (Fulfilled "remote") clean_buffer)) = "remote".
Proof.
  pose proof (edits_during_refresh_are_reloaded_over "typed" "remote"
                clean_buffer) as H.
  cbv zeta in H. destruct H as (Htext & _).
  - reflexivity.
  - reflexivity.
  - discriminate.
  - discriminate.
  - exact Htext.
Defined.
